(** * E-commerce price analyzer: the scrape pipeline and its aggregations

    A shallow embedding of [main.py] (class [WebScraperApp]): the
    per-product extraction loop of [scrape_data], the replacement of the
    held data set, and the aggregations of [update_visualization].

    Conventions of the model.
    - Text is a [string] of ASCII characters; only code points below 128
      are given the meaning Python gives them (white space, digits).
    - A Python [float] is an IEEE-754 binary64 value, taken from the
      Standard Library's [SpecFloat] with [prec = 53] and [emax = 1024];
      [float(s)] rounds the decimal it reads to the nearest binary64,
      ties to even.
    - The markup handed to the extraction is the tree BeautifulSoup
      builds; the HTML tokenizer itself is an input of the model.
    - Calls into pandas are modelled by their documented results, with
      a missing value (NaN) ranked last and skipped by the mean.  The
      histogram of the price-distribution chart is drawn by the plotting
      library from the request recorded in [HistChart]; its bucket
      arithmetic is not part of the model. *)

From stdpp Require Import gmap strings pretty.
From Stdlib Require Import ZArith List Ascii Bool Lia Sorted.
From Stdlib.Floats Require Import SpecFloat.
Import ListNotations.

(** ** Python strings *)

Module Str.

Definition chars (s : string) : list ascii := Stdlib.Strings.String.list_ascii_of_string s.
Definition of_chars (l : list ascii) : string := Stdlib.Strings.String.string_of_list_ascii l.

Definition code (c : ascii) : N := N_of_ascii c.

(** [str.isspace] on one ASCII character: TAB, LF, VT, FF, CR, the four
    separators FS, GS, RS, US, and the space. *)
Definition isspace (c : ascii) : bool :=
  let n := code c in
  ((9 <=? n) && (n <=? 13) || (28 <=? n) && (n <=? 32))%N.

Definition isdigit (c : ascii) : bool :=
  let n := code c in ((48 <=? n) && (n <=? 57))%N.

Definition digit_value (c : ascii) : Z := (Z.of_N (code c) - 48)%Z.

(** ASCII lower-casing, for the case-insensitive words of [float]. *)
Definition lower (c : ascii) : ascii :=
  let n := code c in
  if ((65 <=? n) && (n <=? 90))%N then ascii_of_N (n + 32) else c.

Fixpoint lstrip (l : list ascii) : list ascii :=
  match l with
  | c :: l' => if isspace c then lstrip l' else l
  | [] => []
  end.

Definition rstrip (l : list ascii) : list ascii := rev (lstrip (rev l)).

(** [s.strip()] *)
Definition strip (s : string) : string := of_chars (rstrip (lstrip (chars s))).

(** [l] starts with [p]: the rest of [l] after [p]. *)
Fixpoint strip_prefix (p l : list ascii) : option (list ascii) :=
  match p, l with
  | [], _ => Some l
  | a :: p', b :: l' => if Ascii.eqb a b then strip_prefix p' l' else None
  | _ :: _, [] => None
  end.

(** [s.replace(old, new)]: occurrences of [old] are found left to right
    and do not overlap.  [skip] counts the characters of an occurrence
    just replaced that are still to be passed over.  (Python gives a
    meaning to an empty [old] as well; the program never passes one,
    and [replace] leaves the text unchanged then.) *)
Fixpoint replace_go (old new : list ascii) (skip : nat) (l : list ascii)
  : list ascii :=
  match l with
  | [] => []
  | c :: l' =>
      match skip with
      | S k => replace_go old new k l'
      | O =>
          match strip_prefix old l with
          | Some _ => new ++ replace_go old new (length old - 1) l'
          | None => c :: replace_go old new 0 l'
          end
      end
  end.

Definition replace (old new s : string) : string :=
  match chars old with
  | [] => s
  | o => of_chars (replace_go o (chars new) 0 (chars s))
  end.

(** [sep.join(l)] *)
Fixpoint join (sep : string) (l : list string) : string :=
  match l with
  | [] => ""
  | [x] => x
  | x :: l' => x +:+ sep +:+ join sep l'
  end.

End Str.

(** ** Python exceptions and values *)

(** The exceptions the program can meet.  Each carries what Python would
    print for it in structured form. *)
Inductive exn :=
| AttributeError (attr : string)   (* [None.attr]: 'NoneType' object has no attribute *)
| ValueError (arg : string)        (* could not convert string to float *)
| TypeError                        (* float() argument must be a string or a real number *)
| ConnectionError                  (* [requests.get] could not reach the host *)
| HTTPError (status : Z)           (* [raise_for_status] *)
| ParserError.                     (* the document as a whole was rejected *)

(** A computation that returns or raises. *)
Inductive result (A : Type) :=
| Ok (a : A)
| Raise (e : exn).
Arguments Ok {A} a.
Arguments Raise {A} e.

Definition bind {A B} (r : result A) (k : A -> result B) : result B :=
  match r with
  | Ok a => k a
  | Raise e => Raise e
  end.

Notation "'let*' x ':=' r 'in' k" := (bind r (fun x => k))
  (at level 10, x name, r at level 200, k at level 200).

(** ** Python floats: binary64 *)

Module Float.
Local Open Scope Z_scope.

Definition prec : Z := 53.
Definition emax : Z := 1024.

Abbreviation float := spec_float.

Definition zero : float := S754_zero false.
Definition nan : float := S754_nan.
Definition inf (neg : bool) : float := S754_infinity neg.

Definition add : float -> float -> float := SFadd prec emax.
Definition div : float -> float -> float := SFdiv prec emax.
Definition ltb : float -> float -> bool := SFltb.
Definition leb : float -> float -> bool := SFleb.
Definition eqb : float -> float -> bool := SFeqb.

Definition isnan (x : float) : bool :=
  match x with S754_nan => true | _ => false end.

(** [float(n)] for an integer [n] (within the binary64 range). *)
Definition of_Z (z : Z) : float := binary_normalize prec emax z 0 false.

(** The binary64 nearest to [d * 10^e10], ties to even, with the sign
    [neg]: an integer is rounded directly, a proper fraction is the
    correctly rounded quotient of two integers. *)
Definition of_decimal (neg : bool) (d e10 : Z) : float :=
  match d with
  | Zpos m =>
      if 0 <=? e10
      then binary_round prec emax neg (m * Z.to_pos (10 ^ e10)) 0
      else div (S754_finite neg m 0)
               (S754_finite false (Z.to_pos (10 ^ (- e10))) 0)
  | _ => S754_zero neg
  end.

(** *** [float(str)]: the grammar of the literal *)

Definition sign_of (l : list ascii) : bool * list ascii :=
  match l with
  | c :: l' =>
      if Ascii.eqb c "-" then (true, l')
      else if Ascii.eqb c "+" then (false, l')
      else (false, l)
  | [] => (false, [])
  end.

(** After a digit: further digits, each optionally preceded by a single
    underscore.  [acc] is the value read so far and [n] the number of
    digits of this part. *)
Fixpoint digits_rest (acc : Z) (n : nat) (l : list ascii)
  : Z * nat * list ascii :=
  match l with
  | c :: l' =>
      if Str.isdigit c
      then digits_rest (10 * acc + Str.digit_value c) (S n) l'
      else if Ascii.eqb c "_" then
        match l' with
        | d :: l'' =>
            if Str.isdigit d
            then digits_rest (10 * acc + Str.digit_value d) (S n) l''
            else (acc, n, l)
        | [] => (acc, n, l)
        end
      else (acc, n, l)
  | [] => (acc, n, [])
  end.

(** [digitpart ::= digit (["_"] digit)*], continuing the value [acc]. *)
Definition digitpart (acc : Z) (l : list ascii)
  : option (Z * nat * list ascii) :=
  match l with
  | c :: l' =>
      if Str.isdigit c
      then Some (digits_rest (10 * acc + Str.digit_value c) 1 l')
      else None
  | [] => None
  end.

(** [number ::= [digitpart] "." digitpart | digitpart ["."]]: the digits
    read as one integer, and minus the number of fraction digits. *)
Definition number (l : list ascii) : option (Z * Z * list ascii) :=
  match digitpart 0 l with
  | Some (i, _, rest) =>
      match rest with
      | c :: rest' =>
          if Ascii.eqb c "." then
            match digitpart i rest' with
            | Some (m, k, rest'') => Some (m, - Z.of_nat k, rest'')
            | None => Some (i, 0, rest')
            end
          else Some (i, 0, rest)
      | [] => Some (i, 0, [])
      end
  | None =>
      match l with
      | c :: rest' =>
          if Ascii.eqb c "." then
            match digitpart 0 rest' with
            | Some (m, k, rest'') => Some (m, - Z.of_nat k, rest'')
            | None => None
            end
          else None
      | [] => None
      end
  end.

(** [exponent ::= ("e" | "E") ["+" | "-"] digitpart] *)
Definition exponent (l : list ascii) : option (Z * list ascii) :=
  match l with
  | c :: l' =>
      if Ascii.eqb (Str.lower c) "e" then
        let '(neg, l'') := sign_of l' in
        match digitpart 0 l'' with
        | Some (e, _, rest) => Some (if neg then - e else e, rest)
        | None => None
        end
      else None
  | [] => None
  end.

(** The unsigned value: [inf], [infinity] and [nan] in any case, or a
    decimal number with an optional exponent.  The whole text must be
    consumed. *)
Definition absfloatvalue (neg : bool) (l : list ascii) : option float :=
  let w := Str.of_chars (map Str.lower l) in
  if bool_decide (w = "inf") || bool_decide (w = "infinity") then Some (inf neg)
  else if bool_decide (w = "nan") then Some nan
  else
    match number l with
    | Some (m, k, []) => Some (of_decimal neg m k)
    | Some (m, k, rest) =>
        match exponent rest with
        | Some (e, []) => Some (of_decimal neg m (k + e))
        | _ => None
        end
    | None => None
    end.

(** [float(s)] for a string: surrounding white space is ignored, then
    [floatvalue ::= ["+" | "-"] absfloatvalue]. *)
Definition of_string (s : string) : option float :=
  let '(neg, l) := sign_of (Str.rstrip (Str.lstrip (Str.chars s))) in
  absfloatvalue neg l.

End Float.

Abbreviation float := spec_float.

(** What [tag.get(key, 0)] can hand to [float]: an attribute value (text,
    or a list for a multi-valued attribute) or the integer default. *)
Inductive pyobj :=
| PyStr (s : string)
| PyList (l : list string)
| PyInt (z : Z).

(** [float(x)] *)
Definition float_ (x : pyobj) : result float :=
  match x with
  | PyStr s =>
      match Float.of_string s with
      | Some f => Ok f
      | None => Raise (ValueError s)
      end
  | PyInt z => Ok (Float.of_Z z)
  | PyList _ => Raise TypeError
  end.

(** ** The document tree (bs4) *)

(** An attribute value: text, or a list of words for a multi-valued
    attribute such as [class]. *)
Inductive attr_value :=
| AttrStr (s : string)
| AttrList (l : list string).

(** The tree [BeautifulSoup(markup, 'html.parser')] builds.  [Tag.attrs]
    is a dictionary. *)
#[warnings="-register-all"]
Inductive PageElement :=
| Tag (name : string) (attrs : gmap string attr_value) (contents : list PageElement)
| NavigableString (s : string)
| Comment (s : string).

Module Bs4.

(** [tag.descendants]: every node below the tag, in document order. *)
Fixpoint descendants (e : PageElement) : list PageElement :=
  match e with
  | Tag _ _ contents => flat_map (fun c => c :: descendants c) contents
  | _ => []
  end.

(** A search for the class [cls] accepts an attribute value when one of
    its words is [cls], or when the whole value is. *)
Definition matches_class (cls : string) (v : option attr_value) : bool :=
  match v with
  | Some (AttrList ws) =>
      existsb (fun w => bool_decide (w = cls)) ws
      || bool_decide (Str.join " " ws = cls)
  | Some (AttrStr w) => bool_decide (w = cls)
  | None => false
  end.

(** The filter of [find_all(name, class_=cls)] on one node. *)
Definition matches (name cls : string) (e : PageElement) : bool :=
  match e with
  | Tag n attrs _ => bool_decide (n = name) && matches_class cls (attrs !! "class")
  | _ => false
  end.

(** [tag.find_all(name, class_=cls)] *)
Definition find_all (name cls : string) (e : PageElement) : list PageElement :=
  List.filter (matches name cls) (descendants e).

(** [tag.find(name, class_=cls)]: the first match, or [None]. *)
Definition find (name cls : string) (e : PageElement) : option PageElement :=
  head (find_all name cls e).

(** The strings [get_text] joins: text nodes, not comments. *)
Definition own_string (e : PageElement) : string :=
  match e with
  | NavigableString s => s
  | _ => ""
  end.

(** [tag.text] *)
Definition text (e : PageElement) : string :=
  fold_right (fun c acc => own_string c +:+ acc) "" (descendants e).

(** [tag.get(key, default)] *)
Definition get (key : string) (default : pyobj) (e : PageElement) : pyobj :=
  match e with
  | Tag _ attrs _ =>
      match attrs !! key with
      | Some (AttrStr s) => PyStr s
      | Some (AttrList l) => PyList l
      | None => default
      end
  | _ => default
  end.

End Bs4.

(** Attribute access and method call on what [find] returned: on [None]
    Python raises [AttributeError]. *)
Definition dot_text (o : option PageElement) : result string :=
  match o with
  | Some e => Ok (Bs4.text e)
  | None => Raise (AttributeError "text")
  end.

Definition dot_get (o : option PageElement) (key : string) (default : pyobj)
  : result pyobj :=
  match o with
  | Some e => Ok (Bs4.get key default e)
  | None => Raise (AttributeError "get")
  end.

(** ** Fixed variables *)

Definition SCRAPING_URL : string := "https://webscraper.io/test-sites/e-commerce/allinone".
Definition HEADERS : gmap string string :=
  {[ "User-Agent" := "Mozilla/5.0 (Windows NT 10.0; Win64; x64) AppleWebKit/537.36 (KHTML, like Gecko) Chrome/91.0.4472.124 Safari/537.36" ]}.

Definition PRODUCT_CARD_CLASS : string := "product-wrapper".
Definition PRODUCT_NAME_CLASS : string := "title".
Definition PRODUCT_PRICE_CLASS : string := "price".
Definition PRODUCT_RATING_ATTR : string := "data-rating".

(** ** Dates *)

(** What [datetime.now()] gives, as far as the program looks at it. *)
Record date := {
  year : nat;
  month : nat;
  day : nat
}.

Definition digit (n : nat) : ascii := ascii_of_nat (48 + n mod 10).

(** A number in two, or four, decimal digits, padded with zeros. *)
Definition zero_padded2 (n : nat) (rest : string) : string :=
  String (digit (n / 10)) (String (digit n) rest).

Definition zero_padded4 (n : nat) (rest : string) : string :=
  String (digit (n / 1000)) (String (digit (n / 100)) (zero_padded2 n rest)).

(** [d.strftime('%Y-%m-%d')], for the four-digit years a clock shows. *)
Definition strftime_Ymd (d : date) : string :=
  zero_padded4 (year d) (String "-" (zero_padded2 (month d) (String "-" (zero_padded2 (day d) "")))).

(** ** Records and the extraction loop *)

(** One entry of [data]: the dictionary with the keys Name, Price,
    Rating, Category and Date. *)
Record ProductRecord := {
  Name : string;
  Price : float;
  Rating : float;
  Category : string;
  Date : string
}.

(** The frame [pd.DataFrame(data)]: its rows in order. *)
Abbreviation DataFrame := (list ProductRecord).

(** The body of the inner [try], for one product card.  [date_added] is
    what [datetime.now().strftime('%Y-%m-%d')] yields when it is reached. *)
Definition parse_product (date_added : string) (product : PageElement)
  : result ProductRecord :=
  let* title := dot_text (Bs4.find "a" PRODUCT_NAME_CLASS product) in
  let name := Str.strip title in
  let* price_text := dot_text (Bs4.find "h4" PRODUCT_PRICE_CLASS product) in
  let* price := float_ (PyStr (Str.replace "$" "" price_text)) in
  let* rating_value :=
    dot_get (Bs4.find "div" "ratings" product) PRODUCT_RATING_ATTR (PyInt 0) in
  let* rating := float_ rating_value in
  let category := "Electronics" in
  Ok {| Name := name; Price := price; Rating := rating;
        Category := category; Date := date_added |}.

(** The [for product in product_cards] loop.  [data] is the list being
    appended to, [out] the lines printed so far (one per discarded card,
    kept as the exception that was caught), [i] the position of the next
    card, and [now i] what the clock shows while card [i] is processed. *)
Fixpoint scrape_loop (now : nat -> date) (i : nat)
  (product_cards : list PageElement) (data : list ProductRecord) (out : list exn)
  : list ProductRecord * list exn :=
  match product_cards with
  | [] => (data, out)
  | product :: rest =>
      match parse_product (strftime_Ymd (now i)) product with
      | Ok r => scrape_loop now (S i) rest (data ++ [r]) out
      | Raise e => scrape_loop now (S i) rest data (out ++ [e])
      end
  end.

(** From the parsed document to the new data set and the diagnostics
    (lines 146 to 170 of [scrape_data]). *)
Definition extract (now : nat -> date) (soup : PageElement)
  : DataFrame * list exn :=
  scrape_loop now 0 (Bs4.find_all "div" PRODUCT_CARD_CLASS soup) [] [].

(** ** Aggregations (pandas) *)

Module Pandas.

(** The order in which pandas ranks values of a float column from the
    largest down: a number outranks every smaller number, and every
    number outranks a missing value (NaN), which sorts last. *)
Definition outranks (x y : float) : bool :=
  negb (Float.isnan x) && (Float.isnan y || Float.ltb y x).

Section Column.
Context {Row : Type}.
Variable col : Row -> float.

(** The first row holding the largest value of the column, and the other
    rows in their order. *)
Fixpoint pop_largest (df : list Row) : option (Row * list Row) :=
  match df with
  | [] => None
  | r :: df' =>
      match pop_largest df' with
      | None => Some (r, [])
      | Some (m, rest) =>
          if outranks (col m) (col r) then Some (m, r :: rest) else Some (r, df')
      end
  end.

(** [df.nlargest(n, col)] with the default [keep='first']: the [n] rows
    with the largest values, largest first; among equal values the rows
    that come first in [df] are taken first. *)
Fixpoint nlargest (n : nat) (df : list Row) : list Row :=
  match n with
  | O => []
  | S k =>
      match pop_largest df with
      | None => []
      | Some (m, rest) => m :: nlargest k rest
      end
  end.

(** The wording of the specification: a stable sort, descending, then
    the first [n] rows.  [insert_desc r l] puts [r], which stood before
    every row of [l], in front of the first row it is not outranked by. *)
Fixpoint insert_desc (r : Row) (l : list Row) : list Row :=
  match l with
  | [] => [r]
  | x :: l' =>
      if outranks (col x) (col r) then x :: insert_desc r l' else r :: l
  end.

Fixpoint stable_sort_desc (df : list Row) : list Row :=
  match df with
  | [] => []
  | r :: df' => insert_desc r (stable_sort_desc df')
  end.

Definition spec_top (n : nat) (df : list Row) : list Row :=
  firstn n (stable_sort_desc df).

End Column.

(** [Series.mean()]: missing values are skipped; the mean of the others
    is their sum, accumulated in order, over their count.  (pandas may
    compensate the rounding of the running sum; nothing below depends on
    how the sum is rounded.) *)
Definition fsum (xs : list float) : float := fold_left Float.add xs Float.zero.

Definition mean (xs : list float) : float :=
  match List.filter (fun x => negb (Float.isnan x)) xs with
  | [] => Float.nan
  | ys => Float.div (fsum ys) (Float.of_Z (Z.of_nat (length ys)))
  end.

Section GroupBy.
Context {Row : Type}.
Variable key : Row -> string.
Variable val : Row -> float.

(** One row enters the groups: its value is appended to the group of its
    key; a new key takes its place in ascending order of the keys. *)
Fixpoint group_add (k : string) (v : float) (groups : list (string * list float))
  : list (string * list float) :=
  match groups with
  | [] => [(k, [v])]
  | (k', vs) :: groups' =>
      if bool_decide (k = k') then (k', vs ++ [v]) :: groups'
      else if Stdlib.Strings.String.ltb k k' then (k, [v]) :: groups
      else (k', vs) :: group_add k v groups'
  end.

(** [df.groupby(key)[val]] with the default [sort=True]. *)
Definition groupby (df : list Row) : list (string * list float) :=
  fold_left (fun groups r => group_add (key r) (val r) groups) df [].

(** [df.groupby(key)[val].mean()] *)
Definition groupby_mean (df : list Row) : list (string * float) :=
  map (fun g => (fst g, mean (snd g))) (groupby df).

End GroupBy.

(** [series.value_counts()]: the number of rows per value, the most
    frequent value first. *)
Fixpoint count_add (k : string) (counts : list (string * nat)) : list (string * nat) :=
  match counts with
  | [] => [(k, 1%nat)]
  | (k', n) :: counts' =>
      if bool_decide (k = k') then (k', S n) :: counts'
      else (k', n) :: count_add k counts'
  end.

Fixpoint insert_count (c : string * nat) (l : list (string * nat)) : list (string * nat) :=
  match l with
  | [] => [c]
  | x :: l' => if (snd c <=? snd x)%nat then x :: insert_count c l' else c :: l
  end.

Definition value_counts (xs : list string) : list (string * nat) :=
  fold_right insert_count [] (fold_left (fun counts k => count_add k counts) xs []).

End Pandas.

(** ** The application *)

Record Response := {
  status_code : Z;
  text : string
}.

(** [response.raise_for_status()]: client and server error statuses raise. *)
Definition raise_for_status (response : Response) : result unit :=
  if ((400 <=? status_code response) && (status_code response <? 600))%Z
  then Raise (HTTPError (status_code response))
  else Ok tt.

(** What lies outside the program: the network, the HTML parser and the
    clock. *)
Record World := {
  requests_get : string -> gmap string string -> result Response;
  BeautifulSoup : string -> result PageElement;
  now : nat -> date
}.

(** The text of a message box. *)
Inductive message :=
| FailedToScrape (e : exn)       (* "Failed to scrape data: {e}" *)
| FailedToVisualize (e : exn)    (* "Failed to create visualization: {e}" *)
| PleaseScrapeFirst.             (* "Please scrape data first" *)

Inductive dialog :=
| showerror (title : string) (m : message)
| showwarning (title : string) (m : message).

(** What the figure shows. *)
Inductive Chart :=
| HistChart (bins : nat) (prices : list float)    (* plot(kind='hist', bins=bins) *)
| LineChart (series : list (string * float))
| BarChart (rows : DataFrame)
| PieChart (counts : list (string * nat)).

(** The state of a [WebScraperApp]: the attributes the methods below read
    or write, the message boxes shown and the lines printed. *)
Record App := {
  data : option DataFrame;
  status_var : string;
  analysis_var : string;
  tree_columns : list string;
  tree_rows : list ProductRecord;
  canvas : option Chart;
  dialogs : list dialog;
  stdout : list exn
}.

(** [__init__] *)
Definition init : App := {|
  data := None;
  status_var := "Ready";
  analysis_var := "Select Analysis";
  tree_columns := [];
  tree_rows := [];
  canvas := None;
  dialogs := [];
  stdout := []
|}.

Definition set_status (s : string) (app : App) : App :=
  {| data := data app; status_var := s; analysis_var := analysis_var app;
     tree_columns := tree_columns app; tree_rows := tree_rows app;
     canvas := canvas app; dialogs := dialogs app; stdout := stdout app |}.

Definition set_data (d : DataFrame) (app : App) : App :=
  {| data := Some d; status_var := status_var app; analysis_var := analysis_var app;
     tree_columns := tree_columns app; tree_rows := tree_rows app;
     canvas := canvas app; dialogs := dialogs app; stdout := stdout app |}.

Definition set_tree (cols : list string) (rows : list ProductRecord) (app : App) : App :=
  {| data := data app; status_var := status_var app; analysis_var := analysis_var app;
     tree_columns := cols; tree_rows := rows;
     canvas := canvas app; dialogs := dialogs app; stdout := stdout app |}.

Definition set_canvas (c : Chart) (app : App) : App :=
  {| data := data app; status_var := status_var app; analysis_var := analysis_var app;
     tree_columns := tree_columns app; tree_rows := tree_rows app;
     canvas := Some c; dialogs := dialogs app; stdout := stdout app |}.

Definition show (d : dialog) (app : App) : App :=
  {| data := data app; status_var := status_var app; analysis_var := analysis_var app;
     tree_columns := tree_columns app; tree_rows := tree_rows app;
     canvas := canvas app; dialogs := dialogs app ++ [d]; stdout := stdout app |}.

Definition print (lines : list exn) (app : App) : App :=
  {| data := data app; status_var := status_var app; analysis_var := analysis_var app;
     tree_columns := tree_columns app; tree_rows := tree_rows app;
     canvas := canvas app; dialogs := dialogs app; stdout := stdout app ++ lines |}.

(** The columns of [pd.DataFrame(data)]: the keys of the dictionaries, none
    for an empty list. *)
Definition columns (df : DataFrame) : list string :=
  match df with
  | [] => []
  | _ => ["Name"; "Price"; "Rating"; "Category"; "Date"]
  end.

(** [update_data_display] *)
Definition update_data_display (app : App) : App :=
  match data app with
  | None => app
  | Some df => set_tree (columns df) df app
  end.

(** The body of the outer [try] of [scrape_data]: the state it leaves, and
    whether it completed or raised. *)
Definition scrape_try (w : World) (app : App) : App * result unit :=
  let app := set_status "Scraping data... Please wait" app in
  match requests_get w SCRAPING_URL HEADERS with
  | Raise e => (app, Raise e)
  | Ok response =>
      match raise_for_status response with
      | Raise e => (app, Raise e)
      | Ok _ =>
          match BeautifulSoup w (text response) with
          | Raise e => (app, Raise e)
          | Ok soup =>
              let '(rows, out) := extract (now w) soup in
              let app := print out app in
              let app := set_data rows app in
              let app := update_data_display app in
              let app :=
                set_status ("Successfully scraped " +:+ pretty (length rows)
                            +:+ " products") app in
              (app, Ok tt)
          end
      end
  end.

(** [scrape_data] *)
Definition scrape_data (w : World) (app : App) : App :=
  match scrape_try w app with
  | (app', Ok _) => app'
  | (app', Raise e) =>
      set_status "Scraping failed" (show (showerror "Error" (FailedToScrape e)) app')
  end.

(** [update_visualization] *)
Definition update_visualization (app : App) : App :=
  match data app with
  | None => show (showwarning "No Data" PleaseScrapeFirst) app
  | Some [] => show (showwarning "No Data" PleaseScrapeFirst) app
  | Some df =>
      let selected_analysis := analysis_var app in
      if bool_decide (selected_analysis = "Price Distribution") then
        set_canvas (HistChart 20 (map Price df)) app
      else if bool_decide (selected_analysis = "Price Over Time") then
        set_canvas (LineChart (Pandas.groupby_mean Date Price df)) app
      else if bool_decide (selected_analysis = "Top Rated Products") then
        set_canvas (BarChart (Pandas.nlargest Rating 10 df)) app
      else if bool_decide (selected_analysis = "Category Distribution") then
        set_canvas (PieChart (Pandas.value_counts (map Category df))) app
      else app
  end.

(** ** The widgets and the event loop *)

(** The entries of the analysis menu ([create_widgets]). *)
Definition analysis_options : list string :=
  [ "Price Distribution"; "Price Over Time";
    "Top Rated Products"; "Category Distribution" ].

(** [self.analysis_var] takes the value chosen in the menu. *)
Definition set_analysis (s : string) (app : App) : App :=
  {| data := data app; status_var := status_var app; analysis_var := s;
     tree_columns := tree_columns app; tree_rows := tree_rows app;
     canvas := canvas app; dialogs := dialogs app; stdout := stdout app |}.

(** What the user can do with the window [create_widgets] builds: press
    "Scrape Data" (the world answers as [w] at that moment), choose entry
    number [i] of the read-only analysis menu, or press "Refresh". *)
Inductive event :=
| ScrapeClicked (w : World)
| ComboboxSelected (i : nat)
| RefreshClicked.

(** The callbacks bound in [create_widgets]: the scrape button runs
    [scrape_data]; a choice in the menu sets the variable and fires
    [update_visualization]; the refresh button runs
    [update_visualization].  A position outside the menu cannot be chosen. *)
Definition handle (ev : event) (app : App) : App :=
  match ev with
  | ScrapeClicked w => scrape_data w app
  | ComboboxSelected i =>
      match nth_error analysis_options i with
      | Some s => update_visualization (set_analysis s app)
      | None => app
      end
  | RefreshClicked => update_visualization app
  end.

(** [root.mainloop()] on a window just built: the events in turn. *)
Definition mainloop (events : list event) : App :=
  fold_left (fun app ev => handle ev app) events init.

(** ** Sample documents *)

Module Sample.

(** A tag with the given classes and further attributes. *)
Definition elem (name : string) (classes : list string)
  (others : list (string * string)) (contents : list PageElement) : PageElement :=
  Tag name
      (<["class" := AttrList classes]>
         (list_to_map (map (fun kv => (fst kv, AttrStr (snd kv))) others)))
      contents.

(** A product card as the target site lays it out, with the rating
    attribute on the ratings block when [rating] is given. *)
Definition card (title price : string) (rating : option string) : PageElement :=
  elem "div" ["product-wrapper"; "card-body"] []
    [ elem "h4" ["price"; "float-end"] [] [NavigableString price];
      elem "h4" [] []
        [ elem "a" ["title"] [("href", "/product")] [NavigableString title] ];
      elem "div" ["ratings"]
        (match rating with Some r => [("data-rating", r)] | None => [] end)
        [ elem "p" ["review-count"] [] [NavigableString "3 reviews"] ] ].

Definition page (cards : list PageElement) : PageElement :=
  Tag "[document]" ∅
    [ elem "html" [] []
        [ elem "body" [] [] [ elem "div" ["row"] [] cards ] ] ].

Definition today (_ : nat) : date := {| year := 2024; month := 5; day := 1 |}.

Definition abc : PageElement :=
  page [ card "A" "$10.00" (Some "4");
         card "B" "$5.50" (Some "2");
         card "C" "$20.25" (Some "5") ].

(** A page without product cards. *)
Definition no_products : PageElement :=
  page [ elem "p" ["lead"] [] [NavigableString "No products found"] ].

(** A page whose second card of three has a price that is not a number. *)
Definition one_bad_price : PageElement :=
  page [ card "A" "$10.00" (Some "4");
         card "B" "call us" (Some "2");
         card "C" "$20.25" (Some "5") ].






(** Two days. *)
Definition may_first : date := {| year := 2024; month := 5; day := 1 |}.
Definition may_second : date := {| year := 2024; month := 5; day := 2 |}.

Definition response_200 : Response :=
  {| status_code := 200; text := "<!DOCTYPE html><html></html>" |}.

(** A world in which the request is answered by [r] and the parser turns
    any text into [soup]. *)
Definition world (r : result Response) (soup : result PageElement) : World :=
  {| requests_get := fun _ _ => r;
     BeautifulSoup := fun _ => soup;
     now := today |}.

End Sample.

(** ** Vocabulary of the properties *)

(** The outcome of the inner [try] for each card, in document order. *)
Fixpoint outcomes (now : nat -> date) (i : nat) (product_cards : list PageElement)
  : list (result ProductRecord) :=
  match product_cards with
  | [] => []
  | product :: rest =>
      parse_product (strftime_Ymd (now i)) product :: outcomes now (S i) rest
  end.

Definition returned {A} (rs : list (result A)) : list A :=
  flat_map (fun r => match r with Ok a => [a] | Raise _ => [] end) rs.

Definition raised {A} (rs : list (result A)) : list exn :=
  flat_map (fun r => match r with Ok _ => [] | Raise e => [e] end) rs.

(** The text of the price element of a card, if it has one. *)
Definition price_text (product : PageElement) : option string :=
  Bs4.text <$> Bs4.find "h4" PRODUCT_PRICE_CLASS product.

(** The text of the title element of a card, if it has one. *)
Definition title_text (product : PageElement) : option string :=
  Bs4.text <$> Bs4.find "a" PRODUCT_NAME_CLASS product.

(** What is handed to [float] for the rating of a card with a ratings
    element. *)
Definition rating_value (product : PageElement) : option pyobj :=
  Bs4.get PRODUCT_RATING_ATTR (PyInt 0) <$> Bs4.find "div" "ratings" product.

(** [s] with every occurrence of the character [c] deleted. *)
Definition delete_all (c : ascii) (s : string) : string :=
  Str.of_chars (List.filter (fun x => negb (Ascii.eqb x c)) (Str.chars s)).

(** [x] may stand before [y] in a descending column: [y <= x] as
    numbers, and a missing value stands only before missing values. *)
Definition descending (x y : float) : Prop :=
  if Float.isnan x then Float.isnan y = true
  else Float.isnan y = true \/ Float.leb y x = true.

Definition descending_by {Row : Type} (col : Row -> float) (a b : Row) : Prop :=
  descending (col a) (col b).

(** Two values of a column are equal: equal numbers, or both missing. *)
Definition same_value (x y : float) : bool :=
  Float.eqb x y || (Float.isnan x && Float.isnan y).

(** The place of a float in the order of the reals, as a triple compared
    lexicographically: missing values first, then minus infinity, the
    negative numbers, the zeros, the positive numbers and plus infinity;
    numbers of one sign by exponent, then by mantissa. *)
Definition rank (x : float) : Z * Z * Z :=
  match x with
  | S754_nan => (-3, 0, 0)
  | S754_infinity true => (-2, 0, 0)
  | S754_finite true m e => (-1, - e, Z.neg m)
  | S754_zero _ => (0, 0, 0)
  | S754_finite false m e => (1, e, Z.pos m)
  | S754_infinity false => (2, 0, 0)
  end%Z.

Definition lex_lt (a b : Z * Z * Z) : Prop :=
  (a.1.1 < b.1.1 \/
   a.1.1 = b.1.1 /\ (a.1.2 < b.1.2 \/ a.1.2 = b.1.2 /\ a.2 < b.2))%Z.

Definition lexcmp (a b : Z * Z * Z) : comparison :=
  match (a.1.1 ?= b.1.1)%Z with
  | Eq => match (a.1.2 ?= b.1.2)%Z with
          | Eq => (a.2 ?= b.2)%Z
          | c => c
          end
  | c => c
  end.


(** A date a clock can show: a year of four digits, a month and a day
    of the calendar. *)
Definition clock_date (d : date) : Prop :=
  (1000 <= year d < 100 * 100 /\ 1 <= month d <= 12 /\ 1 <= day d <= 31)%nat.

(** One date lies before another in the calendar. *)
Definition earlier (d1 d2 : date) : Prop :=
  (year d1 < year d2 \/
   year d1 = year d2 /\
   (month d1 < month d2 \/ month d1 = month d2 /\ day d1 < day d2))%nat.




(** A float that is a zero, a number or an infinity of the sign [s]. *)
Definition has_sign (s : bool) (f : float) : Prop :=
  f = S754_zero s \/ f = S754_infinity s \/ exists m e, f = S754_finite s m e.


(** The text handed to [float] spells NaN, with or without a sign. *)
Definition spells_nan (s : string) : bool :=
  bool_decide
    (Str.of_chars
       (map Str.lower (snd (Float.sign_of (Str.rstrip (Str.lstrip (Str.chars s))))))
     = "nan").

(** What holds of the window after any sequence of events. *)
Definition table_shows_data (app : App) : Prop :=
  match data app with
  | None =>
      tree_rows app = [] /\ tree_columns app = [] /\
      canvas app = None /\ stdout app = []
  | Some df => tree_rows app = df /\ tree_columns app = columns df
  end.

Definition status_tells (app : App) : Prop :=
  status_var app = "Ready" /\ data app = None \/
  status_var app = "Scraping failed" \/
  exists df, data app = Some df /\
    status_var app = "Successfully scraped " +:+ pretty (length df) +:+ " products".

(** A product card is well formed when it has a title element, a price
    element whose text without the currency symbol reads as a number, and
    a ratings element whose rating attribute is absent or reads as a
    number. *)
Definition well_formed (product : PageElement) : bool :=
  match title_text product, price_text product, rating_value product with
  | Some _, Some p, Some v =>
      bool_decide (is_Some (Float.of_string (delete_all "$" p)))
      && match v with
         | PyStr s => bool_decide (is_Some (Float.of_string s))
         | PyInt _ => true
         | PyList _ => false
         end
  | _, _, _ => false
  end.

(** * Properties *)

(** ** The model against Python

    Values a Python interpreter prints for the same calls (mantissa and
    exponent of the binary64 result). *)

Example float_one_tenth :
  Float.of_string "0.1" = Some (S754_finite false 7205759403792794 (-56)).
Proof. vm_compute. reflexivity. Qed.

Example float_white_space :
  Float.of_string " 5.5 " = Some (S754_finite false 6192449487634432 (-50)).
Proof. vm_compute. reflexivity. Qed.

Example float_overflow : Float.of_string "1e400" = Some (S754_infinity false).
Proof. vm_compute. reflexivity. Qed.

Example float_underscores_exponent :
  Float.of_string "-1_0.2_5E+1" = Some (S754_finite true 7212796278210560 (-46)).
Proof. vm_compute. reflexivity. Qed.

Example float_rejected :
  Float.of_string "1_" = None /\ Float.of_string "1e" = None /\
  Float.of_string ".e1" = None /\ Float.of_string "" = None /\
  Float.of_string "1 2" = None /\ Float.of_string "$5" = None /\
  Float.of_string "--5" = None /\ Float.of_string "call us" = None.
Proof. vm_compute. repeat split. Qed.

Example float_words :
  Float.of_string "NaN" = Some S754_nan /\
  Float.of_string "-iNfinity" = Some (S754_infinity true) /\
  Float.of_string "5." = Float.of_string "5" /\
  Float.of_string ".5" = Float.of_string "0.5".
Proof. vm_compute. repeat split. Qed.

Example float_rounding :
  Float.of_string "4.35" = Some (S754_finite false 4897664594765414 (-50)) /\
  Float.of_string "2.5e-324" = Some (S754_finite false 1 (-1074)) /\
  Float.of_string "2.4e-324" = Some (S754_zero false) /\
  Float.of_string "1.7976931348623157e308"
  = Some (S754_finite false 9007199254740991 971) /\
  Float.of_string "9007199254740993" = Some (S754_finite false 4503599627370496 1).
Proof. vm_compute. repeat split. Qed.

Example replace_non_overlapping :
  Str.replace "$" "" "$1,0$0.5$" = "1,00.5" /\ Str.replace "ab" "x" "aabab" = "axx".
Proof. split; reflexivity. Qed.

(** The scenario of three products A, B, C priced $10.00, $5.50, $20.25
    and rated 4, 2, 5. *)
Example abc_prices :
  map Price (fst (extract Sample.today Sample.abc))
  = [ S754_finite false 5629499534213120 (-49);
      S754_finite false 6192449487634432 (-50);
      S754_finite false 5699868278390784 (-48) ].
Proof. vm_compute. reflexivity. Qed.

Example abc_top_two :
  map Name (Pandas.nlargest Rating 2 (fst (extract Sample.today Sample.abc)))
  = ["C"; "A"].
Proof. vm_compute. reflexivity. Qed.

Example abc_mean_price :
  Pandas.groupby_mean Date Price (fst (extract Sample.today Sample.abc))
  = [("2024-05-01", S754_finite false 6708486944937301 (-49))].
Proof. vm_compute. reflexivity. Qed.

(** ** Strings *)

Lemma chars_of_chars l : Str.chars (Str.of_chars l) = l.
Proof. apply Stdlib.Strings.String.list_ascii_of_string_of_list_ascii. Qed.

Lemma of_chars_chars s : Str.of_chars (Str.chars s) = s.
Proof. apply Stdlib.Strings.String.string_of_list_ascii_of_string. Qed.

Lemma strip_prefix_single c l :
  Str.strip_prefix [c] l
  = match l with
    | x :: l' => if Ascii.eqb c x then Some l' else None
    | [] => None
    end.
Proof. destruct l as [|x l']; [reflexivity|]. simpl. destruct (Ascii.eqb c x); reflexivity. Qed.

(** Replacing a one-character text by nothing deletes that character
    wherever it stands. *)
Lemma replace_go_single c l :
  Str.replace_go [c] [] 0 l = List.filter (fun x => negb (Ascii.eqb x c)) l.
Proof.
  induction l as [|x l IH]; [reflexivity|].
  cbn [Str.replace_go]. rewrite strip_prefix_single. cbn [List.filter].
  rewrite (Ascii.eqb_sym x c).
  destruct (Ascii.eqb c x); cbn [negb length Nat.sub app]; rewrite IH; reflexivity.
Qed.

Lemma replace_dollar s : Str.replace "$" "" s = delete_all "$" s.
Proof. unfold Str.replace, delete_all. cbn. apply f_equal, replace_go_single. Qed.


(** ** The extraction loop *)

(** The inner [try], field by field. *)
Lemma parse_product_cases d product :
  parse_product d product =
  match title_text product with
  | None => Raise (AttributeError "text")
  | Some t =>
      match price_text product with
      | None => Raise (AttributeError "text")
      | Some p =>
          match Float.of_string (delete_all "$" p) with
          | None => Raise (ValueError (delete_all "$" p))
          | Some price =>
              match rating_value product with
              | None => Raise (AttributeError "get")
              | Some v =>
                  match float_ v with
                  | Raise e => Raise e
                  | Ok rating =>
                      Ok {| Name := Str.strip t; Price := price; Rating := rating;
                            Category := "Electronics"; Date := d |}
                  end
              end
          end
      end
  end.
Proof.
  unfold parse_product, title_text, price_text, rating_value.
  destruct (Bs4.find "a" PRODUCT_NAME_CLASS product); [|reflexivity].
  destruct (Bs4.find "h4" PRODUCT_PRICE_CLASS product); [|reflexivity].
  cbn [dot_text bind fmap option_fmap option_map float_].
  rewrite replace_dollar.
  destruct (Float.of_string _); [|reflexivity].
  destruct (Bs4.find "div" "ratings" product); [|reflexivity].
  cbn [dot_get bind fmap option_fmap option_map].
  destruct (float_ _); reflexivity.
Qed.

(** A card yields a record exactly when it is well formed, whatever the
    date. *)
Lemma parse_product_well_formed d product :
  well_formed product = true <-> exists r, parse_product d product = Ok r.
Proof.
  rewrite parse_product_cases. unfold well_formed.
  destruct (title_text product); [|split; [discriminate | intros [? ?]; discriminate]].
  destruct (price_text product); [|split; [discriminate | intros [? ?]; discriminate]].
  destruct (rating_value product) as [v|].
  2:{ split; [discriminate |]. destruct (Float.of_string _); intros [? ?]; discriminate. }
  destruct (Float.of_string _) as [price|].
  2:{ split; [|intros [? ?]; discriminate].
      rewrite andb_true_iff, bool_decide_eq_true. intros [[? ?] _]. discriminate. }
  destruct v as [s'|l|z]; cbn [float_].
  - destruct (Float.of_string s').
    + split; [eauto|]. intros _. rewrite andb_true_iff, !bool_decide_eq_true. eauto.
    + split; [|intros [? ?]; discriminate].
      rewrite andb_true_iff, !bool_decide_eq_true. intros [_ [? ?]]. discriminate.
  - split; [|intros [? ?]; discriminate].
    rewrite andb_true_iff. intros [_ ?]. discriminate.
  - split; [eauto|]. intros _. rewrite andb_true_iff, !bool_decide_eq_true. eauto.
Qed.

Lemma parse_product_malformed d product :
  well_formed product = false <-> exists e, parse_product d product = Raise e.
Proof.
  destruct (well_formed product) eqn:Hwf.
  - apply (parse_product_well_formed d) in Hwf as [r Hr].
    split; [discriminate|]. intros [e He]. congruence.
  - split; [|reflexivity]. intros _.
    destruct (parse_product d product) as [r|e] eqn:Hp; [|eauto].
    assert (well_formed product = true) by (apply (parse_product_well_formed d); eauto).
    congruence.
Qed.

(** The loop appends, in order, the records of the cards that parse and
    prints one line for each card that does not. *)
Lemma scrape_loop_outcomes now product_cards : forall i rows out,
  scrape_loop now i product_cards rows out
  = (rows ++ returned (outcomes now i product_cards),
     out ++ raised (outcomes now i product_cards)).
Proof.
  induction product_cards as [|product rest IH]; intros i rows out; cbn.
  - now rewrite !app_nil_r.
  - destruct (parse_product (strftime_Ymd (now i)) product) as [r|e]; rewrite IH; cbn.
    + now rewrite <- app_assoc.
    + now rewrite <- app_assoc.
Qed.

Lemma extract_outcomes now soup :
  extract now soup
  = (returned (outcomes now 0 (Bs4.find_all "div" PRODUCT_CARD_CLASS soup)),
     raised (outcomes now 0 (Bs4.find_all "div" PRODUCT_CARD_CLASS soup))).
Proof. unfold extract. now rewrite scrape_loop_outcomes. Qed.

(** Records and well-formed cards correspond one to one, in order. *)
Lemma returned_outcomes now product_cards : forall i,
  Forall2 (fun product r => exists d, parse_product d product = Ok r)
          (List.filter well_formed product_cards)
          (returned (outcomes now i product_cards)).
Proof.
  induction product_cards as [|product rest IH]; intros i; cbn; [constructor|].
  destruct (parse_product (strftime_Ymd (now i)) product) as [r|e] eqn:Hp.
  - assert (well_formed product = true) as ->
      by (apply (parse_product_well_formed (strftime_Ymd (now i))); eauto).
    cbn. constructor; eauto.
  - assert (well_formed product = false) as ->
      by (apply (parse_product_malformed (strftime_Ymd (now i))); eauto).
    cbn. apply IH.
Qed.


Lemma filter_all {A} (f : A -> bool) l :
  Forall (fun x => f x = true) l -> List.filter f l = l.
Proof. induction 1 as [|x l Hx _ IH]; cbn; [reflexivity|]. now rewrite Hx, IH. Qed.


(** C8: for markup containing no block that matches the product-card
    pattern, the extraction returns an empty data set and no error: the
    loop yields no record and prints nothing, and [scrape_data] stores the
    empty data set, shows no message box and reports zero products. *)
Theorem no_cards_empty_dataset (w : World) (app : App) response soup :
  requests_get w SCRAPING_URL HEADERS = Ok response ->
  raise_for_status response = Ok tt ->
  BeautifulSoup w (text response) = Ok soup ->
  Bs4.find_all "div" PRODUCT_CARD_CLASS soup = [] ->
  extract (now w) soup = ([], []) /\
  data (scrape_data w app) = Some [] /\
  dialogs (scrape_data w app) = dialogs app /\
  stdout (scrape_data w app) = stdout app /\
  status_var (scrape_data w app) = "Successfully scraped 0 products".
Proof.
  intros Hget Hstatus Hsoup Hcards.
  assert (extract (now w) soup = ([], [])) as Hex
    by (unfold extract; now rewrite Hcards).
  split; [exact Hex|].
  unfold scrape_data, scrape_try. rewrite Hget, Hstatus, Hsoup, Hex. cbn.
  rewrite app_nil_r. repeat split; reflexivity.
Qed.

Lemma no_cards_empty_dataset_witness :
  Bs4.find_all "div" PRODUCT_CARD_CLASS Sample.no_products = [] /\
  data (scrape_data (Sample.world (Ok Sample.response_200) (Ok Sample.no_products)) init)
  = Some [].
Proof.
  split; [reflexivity|].
  apply (no_cards_empty_dataset
           (Sample.world (Ok Sample.response_200) (Ok Sample.no_products)) init
           Sample.response_200 Sample.no_products);
    reflexivity.
Defined.



(** C7: for a candidate whose ratings element is present but lacks the
    rating attribute, the value handed to [float] is the default 0 and the
    extracted rating is 0.0; the candidate yields a record whenever its
    title and price are extracted, and when it is discarded the exception
    comes from the title or the price, never from the absent attribute. *)
Theorem absent_rating_attribute_is_zero d product n attrs contents :
  Bs4.find "div" "ratings" product = Some (Tag n attrs contents) ->
  attrs !! PRODUCT_RATING_ATTR = None ->
  rating_value product = Some (PyInt 0) /\
  float_ (PyInt 0) = Ok Float.zero /\
  (forall r, parse_product d product = Ok r -> Rating r = Float.zero) /\
  (forall t p price,
      title_text product = Some t ->
      price_text product = Some p ->
      Float.of_string (delete_all "$" p) = Some price ->
      parse_product d product
      = Ok {| Name := Str.strip t; Price := price; Rating := Float.zero;
              Category := "Electronics"; Date := d |}) /\
  (forall e, parse_product d product = Raise e ->
      title_text product = None \/
      price_text product = None \/
      exists p, price_text product = Some p /\
                Float.of_string (delete_all "$" p) = None).
Proof.
  intros Hfind Habsent.
  assert (rating_value product = Some (PyInt 0)) as Hv.
  { unfold rating_value. rewrite Hfind. cbn. now rewrite Habsent. }
  split; [exact Hv|]. split; [reflexivity|].
  rewrite parse_product_cases, Hv. cbn [float_].
  change (Float.of_Z 0) with Float.zero.
  split; [|split].
  - intros r.
    destruct (title_text product); [|discriminate].
    destruct (price_text product); [|discriminate].
    destruct (Float.of_string _); [|discriminate].
    intros [= <-]. reflexivity.
  - intros t p price -> -> ->. reflexivity.
  - intros e.
    destruct (title_text product); [|now left].
    destruct (price_text product) as [p|]; [|now right; left].
    destruct (Float.of_string _) eqn:Hp; [discriminate|].
    intros _. right; right. eauto.
Qed.

Lemma absent_rating_attribute_is_zero_witness :
  rating_value (Sample.card "A" "$10.00" None) = Some (PyInt 0) /\
  exists r, parse_product "2024-05-01" (Sample.card "A" "$10.00" None) = Ok r /\
            Rating r = Float.zero.
Proof.
  destruct (absent_rating_attribute_is_zero "2024-05-01"
              (Sample.card "A" "$10.00" None) _ _ _ eq_refl eq_refl)
    as (Hv & _ & _ & Hok & _).
  split; [exact Hv|].
  eexists. split.
  - apply (Hok "A" "$10.00"); vm_compute; reflexivity.
  - reflexivity.
Defined.



(** ** White space *)


Lemma lstrip_cons l c l' :
  Str.lstrip l = c :: l' -> Str.isspace c = false.
Proof.
  induction l as [|x l IH]; cbn; [discriminate|].
  destruct (Str.isspace x) eqn:Hx; [exact IH|]. now intros [= <- _].
Qed.

Lemma lstrip_incl l c : In c (Str.lstrip l) -> In c l.
Proof.
  induction l as [|x l IH]; cbn; [tauto|].
  destruct (Str.isspace x); [right; auto | trivial].
Qed.




(** ** The sign of a parsed number *)

Section Rounding.
Local Open Scope Z_scope.

Lemma shr_1_nonneg mrs : 0 <= shr_m mrs -> 0 <= shr_m (shr_1 mrs).
Proof. destruct mrs as [[|[p|p|]|p] r s]; cbn; lia. Qed.

Lemma iter_shr_1_nonneg p : forall mrs,
  0 <= shr_m mrs -> 0 <= shr_m (iter_pos shr_1 p mrs).
Proof.
  induction p as [p IH|p IH|]; intros mrs H; cbn.
  - apply IH, IH, shr_1_nonneg, H.
  - apply IH, IH, H.
  - apply shr_1_nonneg, H.
Qed.

Lemma shr_fexp_nonneg m e l :
  0 <= m -> 0 <= shr_m (fst (shr_fexp Float.prec Float.emax m e l)).
Proof.
  intros H. unfold shr_fexp, shr.
  assert (0 <= shr_m (shr_record_of_loc m l)) as H0
    by (destruct l as [|[]]; exact H).
  destruct (_ - e); cbn [fst]; auto using iter_shr_1_nonneg.
Qed.

Lemma round_nearest_even_nonneg m l : 0 <= m -> 0 <= round_nearest_even m l.
Proof.
  intros H. destruct l as [|[]]; cbn; try lia. destruct (Z.even m); lia.
Qed.

Lemma binary_round_aux_has_sign sx mx ex lx :
  0 <= mx -> has_sign sx (binary_round_aux Float.prec Float.emax sx mx ex lx).
Proof.
  intros H. unfold binary_round_aux.
  pose proof (shr_fexp_nonneg mx ex lx H) as H1.
  destruct (shr_fexp _ _ mx ex lx) as [mrs' e'] eqn:E1. cbn [fst] in H1.
  pose proof (shr_fexp_nonneg _ e' loc_Exact
                (round_nearest_even_nonneg _ (loc_of_shr_record mrs') H1)) as H2.
  destruct (shr_fexp _ _ (round_nearest_even _ _) e' loc_Exact) as [mrs'' e''].
  cbn [fst] in H2.
  destruct (shr_m mrs'') as [|m|m]; [now left | | lia].
  destruct (_ <=? _); [right; right; eauto | right; now left].
Qed.

Lemma binary_round_has_sign sx mx ex :
  has_sign sx (binary_round Float.prec Float.emax sx mx ex).
Proof.
  unfold binary_round. destruct (shl_align _ _ _) as [mz ez].
  apply binary_round_aux_has_sign. lia.
Qed.

Lemma div_finite_has_sign sx mx ex my ey :
  has_sign sx (Float.div (S754_finite sx mx ex) (S754_finite false my ey)).
Proof.
  unfold Float.div, SFdiv, SFdiv_core_binary.
  set (s := _ - _ - _). set (e' := Z.min _ _).
  set (m' := match s with Z.pos _ => _ | 0 => _ | Z.neg _ => _ end).
  assert (0 <= m') as Hm'.
  { subst m'. destruct s; try lia. apply Z.shiftl_nonneg. lia. }
  pose proof (Z_div_mod m' (Z.pos my) eq_refl) as Hdiv.
  destruct (Z.div_eucl m' (Z.pos my)) as [q r].
  rewrite xorb_false_r. apply binary_round_aux_has_sign. nia.
Qed.

Lemma of_decimal_has_sign neg d e10 : has_sign neg (Float.of_decimal neg d e10).
Proof.
  unfold Float.of_decimal. destruct d as [|m|m]; [now left | | now left].
  destruct (0 <=? e10); [apply binary_round_has_sign | apply div_finite_has_sign].
Qed.

Lemma has_sign_nonneg f : has_sign false f -> Float.leb Float.zero f = true.
Proof. intros [->|[->|(m & e & ->)]]; reflexivity. Qed.

End Rounding.

Lemma absfloatvalue_sign neg l f :
  Float.absfloatvalue neg l = Some f ->
  bool_decide (Str.of_chars (map Str.lower l) = "nan") = false ->
  has_sign neg f.
Proof.
  unfold Float.absfloatvalue. intros H Hnan. rewrite Hnan in H.
  destruct (_ || _).
  - injection H as <-. right; now left.
  - destruct (Float.number l) as [[[m k] rest]|]; [|discriminate].
    destruct rest as [|c rest].
    + injection H as <-. apply of_decimal_has_sign.
    + destruct (Float.exponent (c :: rest)) as [[e [|? ?]]|]; try discriminate.
      injection H as <-. apply of_decimal_has_sign.
Qed.


Lemma Forall2_In_right {A B} (P : A -> B -> Prop) l l' y :
  Forall2 P l l' -> In y l' -> exists x, In x l /\ P x y.
Proof.
  induction 1 as [|x y' l l' Hxy _ IH]; intros Hin; [destruct Hin|].
  destruct Hin as [<-|Hin].
  - exists x. split; [now left | exact Hxy].
  - destruct (IH Hin) as (x' & Hx' & HP). exists x'. split; [now right | exact HP].
Qed.

(** Every record comes from a card of the document. *)
Lemma extract_row_origin now soup r :
  In r (fst (extract now soup)) ->
  exists product d,
    In product (Bs4.find_all "div" PRODUCT_CARD_CLASS soup) /\
    parse_product d product = Ok r.
Proof.
  rewrite extract_outcomes. cbn [fst]. intros Hin.
  destruct (Forall2_In_right _ _ _ _
              (returned_outcomes now (Bs4.find_all "div" PRODUCT_CARD_CLASS soup) 0) Hin)
    as (product & Hp & d & Hd).
  exists product, d. split; [|exact Hd].
  apply filter_In in Hp. tauto.
Qed.






(** ** Failure of the scrape as a whole *)



(** ** The order of a float column *)

Section FloatOrder.
Local Open Scope Z_scope.

Lemma lexcmp_spec a b : CompareSpec (a = b) (lex_lt a b) (lex_lt b a) (lexcmp a b).
Proof.
  destruct a as [[a1 a2] a3], b as [[b1 b2] b3]. unfold lexcmp, lex_lt. cbn.
  destruct (Z.compare_spec a1 b1); [|constructor; lia..].
  destruct (Z.compare_spec a2 b2); [|constructor; lia..].
  destruct (Z.compare_spec a3 b3); constructor; (congruence || lia).
Qed.

Lemma lex_lt_irrefl a : ~ lex_lt a a.
Proof. unfold lex_lt. lia. Qed.

Lemma lex_lt_asym a b : lex_lt a b -> ~ lex_lt b a.
Proof. unfold lex_lt. lia. Qed.

Lemma lex_lt_cotrans a b c : lex_lt a c -> lex_lt a b \/ lex_lt b c.
Proof. unfold lex_lt. lia. Qed.

Lemma lex_lt_total a b : ~ lex_lt a b -> ~ lex_lt b a -> a = b.
Proof.
  destruct a as [[a1 a2] a3], b as [[b1 b2] b3]. unfold lex_lt. cbn.
  intros. repeat f_equal; lia.
Qed.

(** [SFcompare] on numbers is the lexicographic comparison of ranks. *)
Lemma compare_rank x y :
  Float.isnan x = false -> Float.isnan y = false ->
  SFcompare x y = Some (lexcmp (rank x) (rank y)).
Proof.
  destruct x as [sx|sx| |sx mx ex], y as [sy|sy| |sy my ey];
    try discriminate; intros _ _;
    try destruct sx; try destruct sy; try reflexivity;
    unfold SFcompare, lexcmp, rank; cbn [fst snd].
  rewrite Z.compare_opp, (Z.compare_antisym ex ey).
  change (- (1) ?= - (1)) with Eq. cbv iota.
  destruct (ex ?= ey); reflexivity.
Qed.

Lemma rank_nan x : Float.isnan x = false <-> (-3 < (rank x).1.1).
Proof.
  destruct x as [s|[]| |[] m e]; cbn; split; intros; try reflexivity; try lia;
    discriminate.
Qed.

Lemma rank_nan_eq x : Float.isnan x = true -> rank x = (-3, 0, 0).
Proof. destruct x; try discriminate. reflexivity. Qed.

Lemma ltb_rank x y :
  Float.isnan x = false -> Float.isnan y = false ->
  Float.ltb x y = true <-> lex_lt (rank x) (rank y).
Proof.
  intros Hx Hy. unfold Float.ltb, SFltb. rewrite (compare_rank x y Hx Hy).
  destruct (lexcmp_spec (rank x) (rank y)) as [E|L|G].
  - rewrite E. split; [discriminate | intros H; now apply lex_lt_irrefl in H].
  - tauto.
  - split; [discriminate | intros H; now apply lex_lt_asym in H].
Qed.

Lemma leb_rank x y :
  Float.isnan x = false -> Float.isnan y = false ->
  Float.leb x y = true <-> ~ lex_lt (rank y) (rank x).
Proof.
  intros Hx Hy. unfold Float.leb, SFleb. rewrite (compare_rank x y Hx Hy).
  destruct (lexcmp_spec (rank x) (rank y)) as [E|L|G].
  - rewrite E. split; [intros _; apply lex_lt_irrefl | reflexivity].
  - split; [intros _; now apply lex_lt_asym | reflexivity].
  - split; [discriminate | tauto].
Qed.

Lemma eqb_rank x y :
  Float.isnan x = false -> Float.isnan y = false ->
  Float.eqb x y = true <-> rank x = rank y.
Proof.
  intros Hx Hy. unfold Float.eqb, SFeqb. rewrite (compare_rank x y Hx Hy).
  destruct (lexcmp_spec (rank x) (rank y)) as [E|L|G].
  - tauto.
  - split; [discriminate | intros E; rewrite E in L; now apply lex_lt_irrefl in L].
  - split; [discriminate | intros E; rewrite E in G; now apply lex_lt_irrefl in G].
Qed.

(** [x] outranks [y] exactly when the rank of [y] is below that of [x]. *)
Lemma outranks_rank x y :
  Pandas.outranks x y = true <-> lex_lt (rank y) (rank x).
Proof.
  unfold Pandas.outranks.
  destruct (Float.isnan x) eqn:Hx; cbn [negb andb].
  - rewrite (rank_nan_eq x Hx). split; [discriminate|].
    destruct (Float.isnan y) eqn:Hy.
    + rewrite (rank_nan_eq y Hy). intros H. now apply lex_lt_irrefl in H.
    + apply rank_nan in Hy. unfold lex_lt. cbn. lia.
  - destruct (Float.isnan y) eqn:Hy; cbn [orb].
    + rewrite (rank_nan_eq y Hy). apply rank_nan in Hx.
      split; [|reflexivity]. intros _. unfold lex_lt. cbn. lia.
    + now apply ltb_rank.
Qed.

Lemma outranks_false x y :
  Pandas.outranks x y = false <-> ~ lex_lt (rank y) (rank x).
Proof. rewrite <- outranks_rank. destruct (Pandas.outranks x y); split; congruence. Qed.

Lemma outranks_false_descending x y :
  Pandas.outranks y x = false <-> descending x y.
Proof.
  rewrite outranks_false. unfold descending.
  destruct (Float.isnan x) eqn:Hx.
  - rewrite (rank_nan_eq x Hx). destruct (Float.isnan y) eqn:Hy.
    + rewrite (rank_nan_eq y Hy). split; [reflexivity | intros _; apply lex_lt_irrefl].
    + apply rank_nan in Hy. unfold lex_lt. cbn. split; [lia | discriminate].
  - destruct (Float.isnan y) eqn:Hy.
    + rewrite (rank_nan_eq y Hy). apply rank_nan in Hx.
      split; [now left|]. intros _. unfold lex_lt. cbn. lia.
    + rewrite <- (leb_rank y x Hy Hx). split; [now right|]. now intros [?|?].
Qed.

Lemma same_value_rank x y : same_value x y = true <-> rank x = rank y.
Proof.
  unfold same_value.
  destruct (Float.isnan x) eqn:Hx, (Float.isnan y) eqn:Hy.
  - rewrite (rank_nan_eq x Hx), (rank_nan_eq y Hy), orb_true_r. tauto.
  - destruct x; try discriminate. rewrite orb_false_r.
    apply rank_nan in Hy. cbn. split; [discriminate|]. intros E. rewrite <- E in Hy.
    cbn in Hy. lia.
  - destruct y; try discriminate. rewrite andb_false_l, orb_false_r.
    apply rank_nan in Hx. split.
    + destruct x; discriminate.
    + intros E. rewrite E in Hx. cbn in Hx. lia.
  - rewrite andb_false_l, orb_false_r. now apply eqb_rank.
Qed.

End FloatOrder.

(** ** Top rows of a column *)

Section TopRows.
Context {Row : Type}.
Variable col : Row -> float.

Lemma outranks_asym x y :
  Pandas.outranks x y = true -> Pandas.outranks y x = false.
Proof. rewrite outranks_rank, outranks_false. apply lex_lt_asym. Qed.

Lemma outranks_cotrans x y z :
  Pandas.outranks x z = true ->
  Pandas.outranks x y = true \/ Pandas.outranks y z = true.
Proof.
  rewrite !outranks_rank. intros H.
  destruct (lex_lt_cotrans _ (rank y) _ H); [now right | now left].
Qed.

Lemma pop_largest_none df : Pandas.pop_largest col df = None -> df = [].
Proof.
  destruct df as [|r df]; [reflexivity|]. cbn.
  destruct (Pandas.pop_largest col df) as [[m rest]|]; [|discriminate].
  destruct (Pandas.outranks _ _); discriminate.
Qed.

(** Taking out the first largest row is taking the head of the stable
    descending sort. *)
Lemma pop_largest_sort df : forall m rest,
  Pandas.pop_largest col df = Some (m, rest) ->
  Pandas.stable_sort_desc col df = m :: Pandas.stable_sort_desc col rest.
Proof.
  induction df as [|r df IH]; intros m rest; cbn; [discriminate|].
  destruct (Pandas.pop_largest col df) as [[m' rest']|] eqn:Hpop.
  - rewrite (IH m' rest' eq_refl).
    destruct (Pandas.outranks (col m') (col r)) eqn:Hout; intros [= <- <-]; cbn.
    + now rewrite Hout.
    + now rewrite Hout, (IH m' rest' eq_refl).
  - apply pop_largest_none in Hpop as ->. now intros [= <- <-].
Qed.

Lemma nlargest_spec_top n : forall df,
  Pandas.nlargest col n df = Pandas.spec_top col n df.
Proof.
  unfold Pandas.spec_top.
  induction n as [|n IH]; intros df; cbn; [reflexivity|].
  destruct (Pandas.pop_largest col df) as [[m rest]|] eqn:Hpop.
  - rewrite (pop_largest_sort _ _ _ Hpop), IH. reflexivity.
  - apply pop_largest_none in Hpop as ->. reflexivity.
Qed.

Lemma insert_desc_length r l :
  length (Pandas.insert_desc col r l) = S (length l).
Proof.
  induction l as [|x l IH]; cbn; [reflexivity|].
  destruct (Pandas.outranks _ _); cbn; [now rewrite IH | reflexivity].
Qed.

Lemma stable_sort_desc_length df :
  length (Pandas.stable_sort_desc col df) = length df.
Proof.
  induction df as [|r df IH]; cbn; [reflexivity|].
  now rewrite insert_desc_length, IH.
Qed.

Lemma insert_desc_perm r l : Permutation (r :: l) (Pandas.insert_desc col r l).
Proof.
  induction l as [|x l IH]; cbn; [reflexivity|].
  destruct (Pandas.outranks _ _); [|reflexivity].
  rewrite <- IH. apply perm_swap.
Qed.

Lemma stable_sort_desc_perm df : Permutation df (Pandas.stable_sort_desc col df).
Proof.
  induction df as [|r df IH]; cbn; [reflexivity|].
  rewrite <- insert_desc_perm. now constructor.
Qed.

Lemma insert_desc_sorted r l :
  StronglySorted (descending_by col) l -> StronglySorted (descending_by col) (Pandas.insert_desc col r l).
Proof.
  induction 1 as [|x l Hl IH Hx]; cbn.
  - repeat constructor.
  - destruct (Pandas.outranks (col x) (col r)) eqn:Hout.
    + constructor; [exact IH|].
      rewrite <- insert_desc_perm. constructor; [|exact Hx].
      apply outranks_false_descending, outranks_asym, Hout.
    + constructor; [now constructor|].
      constructor; [now apply outranks_false_descending|].
      rewrite Forall_forall in Hx |- *. intros z Hz.
      apply outranks_false_descending.
      destruct (Pandas.outranks (col z) (col r)) eqn:Hzr; [|reflexivity].
      destruct (outranks_cotrans _ (col x) _ Hzr) as [Hzx|Hxr]; [|congruence].
      specialize (Hx z Hz). apply outranks_false_descending in Hx. congruence.
Qed.

Lemma stable_sort_desc_sorted df :
  StronglySorted (descending_by col) (Pandas.stable_sort_desc col df).
Proof.
  induction df as [|r df IH]; cbn; [constructor | now apply insert_desc_sorted].
Qed.

(** The sort keeps rows of equal value in their order. *)
Lemma insert_desc_stable v r l :
  List.filter (fun a => same_value (col a) v) (Pandas.insert_desc col r l)
  = List.filter (fun a => same_value (col a) v) (r :: l).
Proof.
  induction l as [|x l IH]; [reflexivity|].
  cbn [Pandas.insert_desc].
  destruct (Pandas.outranks (col x) (col r)) eqn:Hout; [|reflexivity].
  cbn [List.filter] in IH |- *. rewrite IH.
  destruct (same_value (col x) v) eqn:Hx, (same_value (col r) v) eqn:Hr;
    try reflexivity.
  apply same_value_rank in Hx, Hr. apply outranks_rank in Hout.
  rewrite Hx, Hr in Hout. now apply lex_lt_irrefl in Hout.
Qed.

Lemma stable_sort_desc_stable v df :
  List.filter (fun a => same_value (col a) v) (Pandas.stable_sort_desc col df)
  = List.filter (fun a => same_value (col a) v) df.
Proof.
  induction df as [|r df IH]; [reflexivity|].
  cbn [Pandas.stable_sort_desc]. rewrite insert_desc_stable.
  cbn [List.filter]. now rewrite IH.
Qed.

Lemma StronglySorted_app_inv {A} (R : A -> A -> Prop) l1 l2 :
  StronglySorted R (l1 ++ l2) ->
  StronglySorted R l1 /\ forall a b, In a l1 -> In b l2 -> R a b.
Proof.
  induction l1 as [|x l1 IH]; cbn; intros H.
  - split; [constructor | intros ? ? []].
  - apply StronglySorted_inv in H as [Hs Hx].
    destruct (IH Hs) as [Hs1 Hcross]. split.
    + constructor; [exact Hs1|]. apply Forall_app in Hx. tauto.
    + intros a b [<-|Ha] Hb; [|now apply Hcross].
      rewrite Forall_forall in Hx. apply Hx, in_or_app. now right.
Qed.

(** The properties of [nlargest] together. *)
Lemma nlargest_properties n df :
  let top := Pandas.nlargest col n df in
  length top = Nat.min n (length df) /\
  top = firstn n (Pandas.stable_sort_desc col df) /\
  StronglySorted (descending_by col) top /\
  (forall v, exists rest,
      List.filter (fun a => same_value (col a) v) df
      = List.filter (fun a => same_value (col a) v) top ++ rest) /\
  (exists others, Permutation df (top ++ others) /\
      forall a b, In a top -> In b others -> descending_by col a b).
Proof.
  cbn zeta. rewrite nlargest_spec_top. unfold Pandas.spec_top.
  set (sorted := Pandas.stable_sort_desc col df).
  pose proof (stable_sort_desc_sorted df) as Hsorted. fold sorted in Hsorted.
  rewrite <- (firstn_skipn n sorted) in Hsorted.
  apply StronglySorted_app_inv in Hsorted as [Htop Hcross].
  split; [|split; [|split; [|split]]].
  - rewrite length_firstn. unfold sorted. now rewrite stable_sort_desc_length.
  - reflexivity.
  - exact Htop.
  - intros v. exists (List.filter (fun a => same_value (col a) v) (skipn n sorted)).
    rewrite <- filter_app, firstn_skipn. unfold sorted.
    now rewrite stable_sort_desc_stable.
  - exists (skipn n sorted). split; [|exact Hcross].
    rewrite firstn_skipn. apply stable_sort_desc_perm.
Qed.

End TopRows.

(** ** Top-rated products *)

(** C2: for every data set, the top-rated selection has min(10, |D|)
    records; it is the first ten records of the stable descending sort by
    rating, so it is sorted descending by rating (missing ratings last),
    records of equal rating appear in the order they have in the data set,
    and no record left out has a higher rating than a selected one. *)
Theorem top_rated_stable_top_ten (D : DataFrame) :
  let top := Pandas.nlargest Rating 10 D in
  length top = Nat.min 10 (length D) /\
  top = firstn 10 (Pandas.stable_sort_desc Rating D) /\
  StronglySorted (descending_by Rating) top /\
  (forall v, exists rest,
      List.filter (fun a => same_value (Rating a) v) D
      = List.filter (fun a => same_value (Rating a) v) top ++ rest) /\
  (exists others, Permutation D (top ++ others) /\
      forall a b, In a top -> In b others -> descending_by Rating a b).
Proof. apply (nlargest_properties Rating 10 D). Qed.

(** ** Strings in order *)

Lemma string_ltb_le a b :
  Stdlib.Strings.String.ltb a b = true <-> String.le a b /\ a <> b.
Proof.
  unfold Stdlib.Strings.String.ltb, String.le, Stdlib.Strings.String.leb.
  destruct (Stdlib.Strings.String.compare a b) eqn:E.
  - apply Stdlib.Strings.String.compare_eq_iff in E. split; [discriminate | tauto].
  - split; [|reflexivity]. intros _. split; [exact I|]. intros ->.
    pose proof (Stdlib.Strings.String.compare_antisym b b) as H.
    rewrite E in H. discriminate H.
  - split; [discriminate|]. intros [[] _].
Qed.

Lemma string_ltb_irrefl a : Stdlib.Strings.String.ltb a a = false.
Proof.
  destruct (Stdlib.Strings.String.ltb a a) eqn:E; [|reflexivity].
  apply string_ltb_le in E. tauto.
Qed.



(** ** Dates as strings *)

Lemma digit_compare a b :
  Ascii.compare (digit a) (digit b) = Nat.compare (a mod 10) (b mod 10).
Proof.
  unfold Ascii.compare, digit, ascii_of_nat.
  pose proof (Nat.mod_upper_bound a 10 ltac:(lia)).
  pose proof (Nat.mod_upper_bound b 10 ltac:(lia)).
  rewrite !N_ascii_embedding by lia.
  rewrite <- Nat2N.inj_compare.
  destruct (Nat.compare_spec (48 + a mod 10) (48 + b mod 10)),
           (Nat.compare_spec (a mod 10) (b mod 10)); (reflexivity || lia).
Qed.

Lemma compare_padded2 a b s t :
  (a < 100)%nat -> (b < 100)%nat ->
  Stdlib.Strings.String.compare (zero_padded2 a s) (zero_padded2 b t)
  = match Nat.compare a b with
    | Eq => Stdlib.Strings.String.compare s t
    | c => c
    end.
Proof.
  intros Ha Hb. unfold zero_padded2. cbn [Stdlib.Strings.String.compare].
  rewrite !digit_compare.
  rewrite (Nat.mod_small (a / 10)), (Nat.mod_small (b / 10))
    by (apply Nat.Div0.div_lt_upper_bound; lia).
  destruct (Nat.compare_spec (a / 10) (b / 10)) as [E|L|G].
  - destruct (Nat.compare_spec (a mod 10) (b mod 10)) as [E'|L'|G'];
      destruct (Nat.compare_spec a b); try reflexivity; exfalso;
      pose proof (Nat.div_mod_eq a 10); pose proof (Nat.div_mod_eq b 10); lia.
  - destruct (Nat.compare_spec a b); try reflexivity; exfalso;
      pose proof (Nat.div_mod_eq a 10); pose proof (Nat.div_mod_eq b 10);
      pose proof (Nat.mod_upper_bound a 10 ltac:(lia));
      pose proof (Nat.mod_upper_bound b 10 ltac:(lia)); nia.
  - destruct (Nat.compare_spec a b); try reflexivity; exfalso;
      pose proof (Nat.div_mod_eq a 10); pose proof (Nat.div_mod_eq b 10);
      pose proof (Nat.mod_upper_bound a 10 ltac:(lia));
      pose proof (Nat.mod_upper_bound b 10 ltac:(lia)); nia.
Qed.

Lemma zero_padded2_mod a s : zero_padded2 a s = zero_padded2 (a mod 100) s.
Proof.
  pose proof (Nat.Div0.mod_mul_r a 10 10) as E. change (10 * 10) with 100 in E.
  pose proof (Nat.mod_upper_bound a 10 ltac:(lia)) as Hx.
  pose proof (Nat.mod_upper_bound (a / 10) 10 ltac:(lia)) as Hy.
  assert (a mod 100 / 10 = (a / 10) mod 10) as Hdiv
    by (symmetry; apply (Nat.div_unique _ _ _ (a mod 10)); lia).
  assert ((a mod 100) mod 10 = a mod 10) as Hmod
    by (symmetry; apply (Nat.mod_unique _ _ ((a / 10) mod 10)); lia).
  unfold zero_padded2, digit.
  now rewrite Hdiv, Hmod, Nat.Div0.mod_mod.
Qed.

Lemma zero_padded4_split a s :
  zero_padded4 a s = zero_padded2 (a / 100) (zero_padded2 (a mod 100) s).
Proof.
  unfold zero_padded4. rewrite (zero_padded2_mod a s). unfold zero_padded2 at 2.
  now rewrite Nat.Div0.div_div.
Qed.

Lemma compare_padded4 a b s t :
  (a < 100 * 100)%nat -> (b < 100 * 100)%nat ->
  Stdlib.Strings.String.compare (zero_padded4 a s) (zero_padded4 b t)
  = match Nat.compare a b with
    | Eq => Stdlib.Strings.String.compare s t
    | c => c
    end.
Proof.
  intros Ha Hb. rewrite !zero_padded4_split.
  pose proof (Nat.div_mod_eq a 100). pose proof (Nat.div_mod_eq b 100).
  pose proof (Nat.mod_upper_bound a 100 ltac:(lia)).
  pose proof (Nat.mod_upper_bound b 100 ltac:(lia)).
  rewrite compare_padded2 by (apply Nat.Div0.div_lt_upper_bound; lia).
  rewrite compare_padded2 by assumption.
  destruct (Nat.compare_spec (a / 100) (b / 100));
    destruct (Nat.compare_spec (a mod 100) (b mod 100));
    destruct (Nat.compare_spec a b); try reflexivity; exfalso; nia.
Qed.

(** The strings [strftime] prints are in the order of the dates. *)
Lemma strftime_order d1 d2 :
  clock_date d1 -> clock_date d2 ->
  Stdlib.Strings.String.ltb (strftime_Ymd d1) (strftime_Ymd d2) = true <-> earlier d1 d2.
Proof.
  intros (Hy1 & Hm1 & Hd1) (Hy2 & Hm2 & Hd2).
  unfold Stdlib.Strings.String.ltb, strftime_Ymd, earlier.
  rewrite compare_padded4 by tauto.
  cbn [Stdlib.Strings.String.compare].
  change (Ascii.compare "-" "-") with Eq. cbv iota.
  rewrite compare_padded2 by lia.
  cbn [Stdlib.Strings.String.compare].
  change (Ascii.compare "-" "-") with Eq. cbv iota.
  rewrite compare_padded2 by lia.
  cbn [Stdlib.Strings.String.compare].
  destruct (Nat.compare_spec (year d1) (year d2));
    destruct (Nat.compare_spec (month d1) (month d2));
    destruct (Nat.compare_spec (day d1) (day d2));
    split; intros; try discriminate; try reflexivity; lia.
Qed.

(** ** Grouping *)

Section Groups.
Context {Row : Type}.
Variable key : Row -> string.
Variable val : Row -> float.










End Groups.



(** Every record carries the date the clock showed for its card. *)
Lemma returned_outcomes_date now product_cards : forall i r,
  In r (returned (outcomes now i product_cards)) ->
  exists k, Date r = strftime_Ymd (now k).
Proof.
  induction product_cards as [|product rest IH]; intros i r; cbn; [tauto|].
  destruct (parse_product (strftime_Ymd (now i)) product) as [r'|e] eqn:Hp; cbn.
  - intros [<-|Hin]; [|eauto]. exists i.
    rewrite parse_product_cases in Hp.
    destruct (title_text product); [|discriminate].
    destruct (price_text product); [|discriminate].
    destruct (Float.of_string _); [|discriminate].
    destruct (rating_value product) as [v|]; [|discriminate].
    destruct (float_ v); [|discriminate].
    now injection Hp as <-.
  - eauto.
Qed.

Lemma extract_dates now soup r :
  In r (fst (extract now soup)) -> exists k, Date r = strftime_Ymd (now k).
Proof. rewrite extract_outcomes. apply returned_outcomes_date. Qed.

(** ** The charts *)

Lemma update_visualization_no_data app :
  data app = None \/ data app = Some [] ->
  update_visualization app = show (showwarning "No Data" PleaseScrapeFirst) app.
Proof. unfold update_visualization. now intros [->| ->]. Qed.

Lemma update_visualization_price_distribution app D :
  data app = Some D -> D <> [] -> analysis_var app = "Price Distribution" ->
  canvas (update_visualization app) = Some (HistChart 20 (map Price D)).
Proof.
  unfold update_visualization. intros -> HD ->. destruct D; [contradiction|].
  reflexivity.
Qed.

Lemma update_visualization_price_over_time app D :
  data app = Some D -> D <> [] -> analysis_var app = "Price Over Time" ->
  canvas (update_visualization app) = Some (LineChart (Pandas.groupby_mean Date Price D)).
Proof.
  unfold update_visualization. intros -> HD ->. destruct D; [contradiction|].
  reflexivity.
Qed.

Lemma update_visualization_top_rated app D :
  data app = Some D -> D <> [] -> analysis_var app = "Top Rated Products" ->
  canvas (update_visualization app) = Some (BarChart (Pandas.nlargest Rating 10 D)).
Proof.
  unfold update_visualization. intros -> HD ->. destruct D; [contradiction|].
  reflexivity.
Qed.

(** * Further properties of the code *)

(** ** A scrape that completes *)




(** X1: when the request is answered without an error status and the
    document parses, [scrape_data] completes whatever the cards look
    like: the data set held becomes the extracted records, the table shows
    them under their columns, the status bar reports their number, the
    diagnostics of the discarded cards are printed, and no message box is
    opened; the chart is left as it was. *)
Theorem scrape_completes w app response soup :
  requests_get w SCRAPING_URL HEADERS = Ok response ->
  raise_for_status response = Ok tt ->
  BeautifulSoup w (text response) = Ok soup ->
  let rows := fst (extract (now w) soup) in
  data (scrape_data w app) = Some rows /\
  tree_rows (scrape_data w app) = rows /\
  tree_columns (scrape_data w app) = columns rows /\
  status_var (scrape_data w app)
  = "Successfully scraped " +:+ pretty (length rows) +:+ " products" /\
  stdout (scrape_data w app) = stdout app ++ snd (extract (now w) soup) /\
  dialogs (scrape_data w app) = dialogs app /\
  canvas (scrape_data w app) = canvas app /\
  analysis_var (scrape_data w app) = analysis_var app.
Proof.
  intros Hget Hstatus Hsoup. cbn zeta.
  unfold scrape_data, scrape_try. rewrite Hget, Hstatus, Hsoup.
  destruct (extract (now w) soup) as [rows out]. cbn.
  repeat split; reflexivity.
Qed.

Lemma scrape_completes_witness :
  data (scrape_data (Sample.world (Ok Sample.response_200) (Ok Sample.one_bad_price)) init)
  = Some (fst (extract Sample.today Sample.one_bad_price)) /\
  status_var (scrape_data (Sample.world (Ok Sample.response_200) (Ok Sample.one_bad_price)) init)
  = "Successfully scraped 2 products".
Proof.
  destruct (scrape_completes
              (Sample.world (Ok Sample.response_200) (Ok Sample.one_bad_price)) init
              Sample.response_200 Sample.one_bad_price eq_refl eq_refl eq_refl)
    as (Hdata & _ & _ & Hstatus & _).
  split; [exact Hdata|]. rewrite Hstatus. vm_compute. reflexivity.
Defined.

(** ** Placeholder category and the clock *)

Lemma extract_row_fields now soup r :
  In r (fst (extract now soup)) ->
  Category r = "Electronics" /\ exists k, Date r = strftime_Ymd (now k).
Proof.
  intros Hin. split; [|now apply (extract_dates now soup)].
  destruct (extract_row_origin _ _ _ Hin) as (product & d & _ & Hd).
  rewrite parse_product_cases in Hd.
  destruct (title_text product); [|discriminate].
  destruct (price_text product); [|discriminate].
  destruct (Float.of_string _); [|discriminate].
  destruct (rating_value product) as [v|]; [|discriminate].
  destruct (float_ v); [|discriminate].
  now injection Hd as <-.
Qed.

Lemma count_add_same k xs : forall n,
  Forall (fun x => x = k) xs ->
  fold_left (fun counts x => Pandas.count_add x counts) xs [(k, n)]
  = [(k, (n + length xs)%nat)].
Proof.
  induction xs as [|x xs IH]; intros n Hall; cbn.
  - now rewrite Nat.add_0_r.
  - apply Forall_cons_iff in Hall as [-> Hall].
    rewrite bool_decide_eq_true_2 by reflexivity.
    rewrite IH by exact Hall. do 2 f_equal. lia.
Qed.

(** X8: every extracted record carries the placeholder category, so for
    a scraped data set that is not empty the category chart has a single
    slice, "Electronics", counting all records. *)
Theorem category_is_one_slice now soup :
  fst (extract now soup) <> [] ->
  Forall (fun r => Category r = "Electronics") (fst (extract now soup)) /\
  Pandas.value_counts (map Category (fst (extract now soup)))
  = [("Electronics", length (fst (extract now soup)))].
Proof.
  intros Hne.
  assert (Forall (fun r => Category r = "Electronics") (fst (extract now soup))) as Hall.
  { apply Forall_forall. intros r Hr. now apply (extract_row_fields now soup). }
  split; [exact Hall|].
  destruct (fst (extract now soup)) as [|r rows]; [contradiction|].
  apply Forall_cons_iff in Hall as [Hr Hall].
  unfold Pandas.value_counts. cbn [map fold_left Pandas.count_add]. rewrite Hr.
  rewrite count_add_same.
  - cbn. now rewrite length_map.
  - apply Forall_forall. intros x Hx. apply in_map_iff in Hx as (r' & <- & Hr').
    rewrite Forall_forall in Hall. now apply Hall.
Qed.

Lemma category_is_one_slice_witness :
  fst (extract Sample.today Sample.abc) <> [] /\
  Pandas.value_counts (map Category (fst (extract Sample.today Sample.abc)))
  = [("Electronics", 3%nat)].
Proof.
  assert (fst (extract Sample.today Sample.abc) <> []) as Hne
    by (vm_compute; discriminate).
  split; [exact Hne|].
  destruct (category_is_one_slice Sample.today Sample.abc Hne) as [_ H].
  rewrite H. vm_compute. reflexivity.
Defined.




(** X10: the date string identifies the day: two dates a clock can show
    are printed as the same string only if they are the same date, so
    records scraped on different days never share a group. *)
Theorem strftime_identifies_day d1 d2 :
  clock_date d1 -> clock_date d2 ->
  strftime_Ymd d1 = strftime_Ymd d2 -> d1 = d2.
Proof.
  intros H1 H2 Heq.
  pose proof (strftime_order d1 d2 H1 H2) as H12.
  pose proof (strftime_order d2 d1 H2 H1) as H21.
  rewrite Heq in H12. rewrite <- Heq in H21.
  rewrite string_ltb_irrefl in H12, H21.
  assert (~ earlier d1 d2) as N12 by (intros H; apply H12 in H; discriminate).
  assert (~ earlier d2 d1) as N21 by (intros H; apply H21 in H; discriminate).
  unfold earlier in N12, N21.
  destruct d1 as [y1 m1 a1], d2 as [y2 m2 a2]. cbn in *.
  f_equal; lia.
Qed.

Lemma strftime_identifies_day_witness :
  clock_date Sample.may_first /\ clock_date Sample.may_second /\
  strftime_Ymd Sample.may_first <> strftime_Ymd Sample.may_second.
Proof.
  assert (clock_date Sample.may_first) as H1 by (unfold clock_date; cbn; lia).
  assert (clock_date Sample.may_second) as H2 by (unfold clock_date; cbn; lia).
  split; [exact H1|]. split; [exact H2|].
  intros Heq. pose proof (strftime_identifies_day _ _ H1 H2 Heq) as H.
  discriminate H.
Defined.

(** ** Few products *)

(** X11: with at most ten products in the data set, the top-rated chart
    shows every one of them exactly once (in descending order of rating);
    nothing is dropped before the eleventh product. *)
Theorem top_rated_shows_all (D : DataFrame) :
  (length D <= 10)%nat ->
  Permutation D (Pandas.nlargest Rating 10 D) /\
  length (Pandas.nlargest Rating 10 D) = length D.
Proof.
  intros Hlen.
  destruct (nlargest_properties Rating 10 D) as (_ & Htop & _).
  rewrite Htop, firstn_all2 by (now rewrite stable_sort_desc_length).
  split; [apply stable_sort_desc_perm | apply stable_sort_desc_length].
Qed.

Lemma top_rated_shows_all_witness :
  (length (fst (extract Sample.today Sample.abc)) <= 10)%nat /\
  Permutation (fst (extract Sample.today Sample.abc))
              (Pandas.nlargest Rating 10 (fst (extract Sample.today Sample.abc))).
Proof.
  assert (length (fst (extract Sample.today Sample.abc)) <= 10)%nat as Hlen
    by (vm_compute; lia).
  split; [exact Hlen|].
  apply (top_rated_shows_all (fst (extract Sample.today Sample.abc)) Hlen).
Defined.

(** ** A rating attribute that is present *)



(** ** The window over time *)

Lemma update_visualization_keeps app :
  data (update_visualization app) = data app /\
  status_var (update_visualization app) = status_var app /\
  analysis_var (update_visualization app) = analysis_var app /\
  tree_rows (update_visualization app) = tree_rows app /\
  tree_columns (update_visualization app) = tree_columns app /\
  stdout (update_visualization app) = stdout app /\
  (data app = None -> canvas (update_visualization app) = canvas app).
Proof.
  unfold update_visualization.
  destruct (data app) as [[|r df]|] eqn:Hdata; cbn; rewrite ?Hdata; try tauto.
  repeat case_bool_decide; cbn; rewrite ?Hdata;
    repeat split; try reflexivity; intros; discriminate.
Qed.

Lemma scrape_data_keeps_invariants w app :
  table_shows_data app -> status_tells (scrape_data w app) /\ table_shows_data (scrape_data w app).
Proof.
  intros Htable. unfold scrape_data, scrape_try.
  destruct (requests_get w SCRAPING_URL HEADERS) as [response|e].
  2:{ split; [right; now left | exact Htable]. }
  destruct (raise_for_status response) as [[]|e].
  2:{ split; [right; now left | exact Htable]. }
  destruct (BeautifulSoup w (text response)) as [soup|e].
  2:{ split; [right; now left | exact Htable]. }
  destruct (extract (now w) soup) as [rows out]. cbn. split.
  - right; right. exists rows. split; reflexivity.
  - unfold table_shows_data. cbn. split; reflexivity.
Qed.

Lemma handle_keeps_invariants ev app :
  table_shows_data app /\ status_tells app /\
  In (analysis_var app) ("Select Analysis" :: analysis_options) ->
  table_shows_data (handle ev app) /\ status_tells (handle ev app) /\
  In (analysis_var (handle ev app)) ("Select Analysis" :: analysis_options).
Proof.
  intros (Htable & Hstatus & Hvar).
  assert (forall a, table_shows_data a -> status_tells a ->
            table_shows_data (update_visualization a) /\
            status_tells (update_visualization a)) as Hvis.
  { intros a Ht Hs.
    destruct (update_visualization_keeps a) as (Hd & Hst & _ & Hr & Hc & Ho & Hcanvas).
    unfold table_shows_data, status_tells in *. rewrite Hd, Hst, Hr, Hc, Ho.
    split; [|exact Hs].
    destruct (data a); [exact Ht|]. now rewrite Hcanvas. }
  destruct ev as [w|i|]; cbn [handle].
  - destruct (scrape_data_keeps_invariants w app Htable) as [Hs Ht].
    split; [exact Ht|]. split; [exact Hs|].
    unfold scrape_data, scrape_try.
    destruct (requests_get w SCRAPING_URL HEADERS) as [response|e]; [|exact Hvar].
    destruct (raise_for_status response) as [[]|e]; [|exact Hvar].
    destruct (BeautifulSoup w (text response)) as [soup|e]; [|exact Hvar].
    destruct (extract (now w) soup) as [rows out]. exact Hvar.
  - destruct (nth_error analysis_options i) as [s|] eqn:Hs; [|tauto].
    destruct (Hvis (set_analysis s app) Htable Hstatus) as [Ht Hst].
    split; [exact Ht|]. split; [exact Hst|].
    destruct (update_visualization_keeps (set_analysis s app)) as (_ & _ & -> & _).
    right. eapply nth_error_In, Hs.
  - destruct (Hvis app Htable Hstatus) as [Ht Hst].
    split; [exact Ht|]. split; [exact Hst|].
    now destruct (update_visualization_keeps app) as (_ & _ & -> & _).
Qed.

(** X12: whatever the user does with the window, in any order, the
    table shows exactly the data set held (nothing at all, and no chart,
    before the first scrape that completes); the status bar reads
    "Ready" only while no data set is held, and a success message always
    gives the size of the data set held; the analysis variable is the
    initial prompt or an entry of the menu. *)
Theorem window_invariants (events : list event) :
  table_shows_data (mainloop events) /\
  status_tells (mainloop events) /\
  In (analysis_var (mainloop events)) ("Select Analysis" :: analysis_options).
Proof.
  unfold mainloop.
  assert (table_shows_data init /\ status_tells init /\
          In (analysis_var init) ("Select Analysis" :: analysis_options)) as Hinit.
  { split; [cbn; tauto|]. split; [left; split; reflexivity | now left]. }
  revert Hinit. generalize init.
  induction events as [|ev events IH]; intros app Hinv; [exact Hinv|].
  cbn [fold_left]. apply IH, handle_keeps_invariants, Hinv.
Qed.

(** X13: a scrape that completes on a page without product cards leaves
    an empty data set, and every analysis asked for afterwards is answered
    by the warning to scrape first; the chart is not touched. *)
Theorem no_products_no_chart w app response soup s :
  requests_get w SCRAPING_URL HEADERS = Ok response ->
  raise_for_status response = Ok tt ->
  BeautifulSoup w (text response) = Ok soup ->
  Bs4.find_all "div" PRODUCT_CARD_CLASS soup = [] ->
  update_visualization (set_analysis s (scrape_data w app))
  = show (showwarning "No Data" PleaseScrapeFirst) (set_analysis s (scrape_data w app)) /\
  canvas (update_visualization (set_analysis s (scrape_data w app))) = canvas app /\
  data (update_visualization (set_analysis s (scrape_data w app))) = Some [].
Proof.
  intros Hget Hstatus Hsoup Hcards.
  unfold scrape_data, scrape_try, extract.
  rewrite Hget, Hstatus, Hsoup, Hcards. cbn. repeat split; reflexivity.
Qed.

Lemma no_products_no_chart_witness :
  dialogs (update_visualization
             (set_analysis "Price Distribution"
                (scrape_data (Sample.world (Ok Sample.response_200) (Ok Sample.no_products))
                             init)))
  = [showwarning "No Data" PleaseScrapeFirst].
Proof.
  destruct (no_products_no_chart
              (Sample.world (Ok Sample.response_200) (Ok Sample.no_products)) init
              Sample.response_200 Sample.no_products "Price Distribution"
              eq_refl eq_refl eq_refl eq_refl) as [-> _].
  reflexivity.
Defined.

(** ** Names without surrounding white space *)

Lemma lstrip_split l :
  exists pre, l = pre ++ Str.lstrip l /\ Forall (fun c => Str.isspace c = true) pre.
Proof.
  induction l as [|c l (pre & Hl & Hpre)]; cbn.
  - exists []. split; [reflexivity | constructor].
  - destruct (Str.isspace c) eqn:Hc.
    + exists (c :: pre). split; [cbn; now rewrite <- Hl | now constructor].
    + exists []. split; [reflexivity | constructor].
Qed.

Lemma rstrip_split l :
  exists suf, l = Str.rstrip l ++ suf /\ Forall (fun c => Str.isspace c = true) suf.
Proof.
  unfold Str.rstrip. destruct (lstrip_split (rev l)) as (pre & Hl & Hpre).
  exists (rev pre). split.
  - rewrite <- rev_app_distr, <- Hl. now rewrite rev_involutive.
  - now apply Forall_rev.
Qed.

Lemma lstrip_fixed c l : Str.isspace c = false -> Str.lstrip (c :: l) = c :: l.
Proof. intros H. cbn. now rewrite H. Qed.

Lemma strip_head t c rest :
  Str.chars (Str.strip t) = c :: rest -> Str.isspace c = false.
Proof.
  unfold Str.strip. rewrite chars_of_chars. intros H.
  destruct (rstrip_split (Str.lstrip (Str.chars t))) as (suf & Hs & _).
  rewrite H in Hs. cbn in Hs. now apply lstrip_cons in Hs.
Qed.

Lemma strip_last t c front :
  Str.chars (Str.strip t) = front ++ [c] -> Str.isspace c = false.
Proof.
  unfold Str.strip, Str.rstrip. rewrite chars_of_chars. intros H.
  apply (f_equal (@rev _)) in H. rewrite rev_involutive, rev_app_distr in H.
  cbn in H. now apply lstrip_cons in H.
Qed.

Lemma strip_strip t : Str.strip (Str.strip t) = Str.strip t.
Proof.
  destruct (Str.chars (Str.strip t)) as [|c rest] eqn:Hc.
  - apply (f_equal Str.of_chars) in Hc. rewrite of_chars_chars in Hc.
    rewrite Hc. reflexivity.
  - unfold Str.strip at 1. rewrite Hc.
    rewrite (lstrip_fixed c rest) by (eapply strip_head; eauto).
    unfold Str.rstrip.
    destruct (rev (c :: rest)) as [|x front] eqn:Hrev.
    { apply (f_equal (@length _)) in Hrev. rewrite length_rev in Hrev. discriminate. }
    assert (Str.isspace x = false) as Hx.
    { apply (strip_last t x (rev front)). rewrite Hc.
      apply (f_equal (@rev _)) in Hrev. now rewrite rev_involutive in Hrev. }
    rewrite (lstrip_fixed x front Hx), <- Hrev, rev_involutive, <- Hc.
    apply of_chars_chars.
Qed.

(** X3: the name of every extracted record is free of surrounding white
    space: it neither begins nor ends with a white-space character, and
    stripping it again changes nothing. *)
Theorem names_are_stripped now soup r :
  In r (fst (extract now soup)) ->
  Str.strip (Name r) = Name r /\
  (forall c rest, Str.chars (Name r) = c :: rest -> Str.isspace c = false) /\
  (forall c front, Str.chars (Name r) = front ++ [c] -> Str.isspace c = false).
Proof.
  intros Hin. destruct (extract_row_origin _ _ _ Hin) as (product & d & _ & Hd).
  rewrite parse_product_cases in Hd.
  destruct (title_text product) as [t|]; [|discriminate].
  destruct (price_text product); [|discriminate].
  destruct (Float.of_string _); [|discriminate].
  destruct (rating_value product) as [v|]; [|discriminate].
  destruct (float_ v); [|discriminate].
  injection Hd as <-. cbn [Name].
  split; [apply strip_strip|]. split; [apply strip_head | apply strip_last].
Qed.

Lemma names_are_stripped_witness :
  In {| Name := "A"; Price := S754_finite false 5629499534213120 (-49);
        Rating := S754_finite false 4503599627370496 (-50);
        Category := "Electronics"; Date := "2024-05-01" |}
     (fst (extract Sample.today Sample.abc)) /\
  Str.strip "A" = "A".
Proof.
  assert (In {| Name := "A"; Price := S754_finite false 5629499534213120 (-49);
                Rating := S754_finite false 4503599627370496 (-50);
                Category := "Electronics"; Date := "2024-05-01" |}
             (fst (extract Sample.today Sample.abc))) as Hin
    by (vm_compute; left; reflexivity).
  split; [exact Hin|].
  now destruct (names_are_stripped Sample.today Sample.abc _ Hin) as [H _].
Defined.

(** ** The characters of a price *)














(** ** Scraping again *)


(** ** Prices that are not numbers *)

(** X6: reading a decimal never produces NaN: the price of a record is
    NaN only when the price text, dollar signs deleted, spells the word
    nan.  Every other accepted text gives a number or an infinity. *)
Theorem nan_price_spells_nan d product p r :
  price_text product = Some p ->
  parse_product d product = Ok r ->
  Float.isnan (Price r) = true ->
  spells_nan (delete_all "$" p) = true.
Proof.
  intros Hp Hr Hnan. rewrite parse_product_cases, Hp in Hr.
  destruct (title_text product); [|discriminate].
  destruct (Float.of_string (delete_all "$" p)) as [price|] eqn:Hprice; [|discriminate].
  destruct (rating_value product) as [v|]; [|discriminate].
  destruct (float_ v); [|discriminate].
  injection Hr as <-. cbn [Price] in Hnan.
  unfold spells_nan. unfold Float.of_string in Hprice.
  destruct (Float.sign_of _) as [neg l]. cbn [snd].
  destruct (bool_decide (Str.of_chars (map Str.lower l) = "nan")) eqn:Hword;
    [reflexivity|].
  destruct (absfloatvalue_sign _ _ _ Hprice Hword) as [->|[->|(m & e & ->)]];
    discriminate.
Qed.

Lemma nan_price_spells_nan_witness :
  parse_product "2024-05-01" (Sample.card "A" "$NaN" (Some "3"))
  = Ok {| Name := "A"; Price := S754_nan;
          Rating := S754_finite false 6755399441055744 (-51);
          Category := "Electronics"; Date := "2024-05-01" |} /\
  spells_nan (delete_all "$" "$NaN") = true.
Proof.
  assert (parse_product "2024-05-01" (Sample.card "A" "$NaN" (Some "3"))
          = Ok {| Name := "A"; Price := S754_nan;
                  Rating := S754_finite false 6755399441055744 (-51);
                  Category := "Electronics"; Date := "2024-05-01" |}) as Hr
    by (vm_compute; reflexivity).
  split; [exact Hr|].
  apply (nan_price_spells_nan "2024-05-01" (Sample.card "A" "$NaN" (Some "3")) "$NaN" _
           eq_refl Hr).
  reflexivity.
Defined.

(** ** Ordinary prices *)

Lemma isdigit_facts c :
  Str.isdigit c = true ->
  Str.isspace c = false /\ Str.lower c = c /\
  Ascii.eqb c "-" = false /\ Ascii.eqb c "+" = false /\
  Ascii.eqb c "_" = false /\ Ascii.eqb c "." = false /\
  Ascii.eqb c "$" = false /\ c <> "i"%char /\ c <> "n"%char.
Proof.
  intros H.
  assert (forall x : ascii, Str.isdigit x = false -> Ascii.eqb c x = false) as Hne.
  { intros x Hx. destruct (Ascii.eqb_spec c x) as [->|]; [congruence | reflexivity]. }
  assert (forall x : ascii, Str.isdigit x = false -> c <> x) as Hne'
    by (intros x Hx ->; congruence).
  repeat split; try (apply Hne; reflexivity); try (apply Hne'; reflexivity).
  - unfold Str.isdigit, Str.isspace in *.
    apply andb_true_iff in H as [H1 H2].
    apply N.leb_le in H1. apply N.leb_le in H2.
    apply orb_false_iff. split; apply andb_false_iff.
    + right. apply N.leb_gt. lia.
    + right. apply N.leb_gt. lia.
  - unfold Str.isdigit, Str.lower in *.
    apply andb_true_iff in H as [H1 H2].
    apply N.leb_le in H1. apply N.leb_le in H2.
    replace (65 <=? Str.code c)%N with false; [reflexivity|].
    symmetry. apply N.leb_gt. lia.
Qed.

Lemma digits_rest_digits l r : forall acc n,
  Forall (fun c => Str.isdigit c = true) l ->
  (r = [] \/ exists x r', r = x :: r' /\ Str.isdigit x = false /\ Ascii.eqb x "_" = false) ->
  exists acc', Float.digits_rest acc n (l ++ r) = (acc', (n + length l)%nat, r).
Proof.
  induction l as [|c l IH]; intros acc n Hl Hr.
  - exists acc. rewrite Nat.add_0_r. cbn [app].
    destruct Hr as [->|(x & r' & -> & Hx & Hu)]; [reflexivity|].
    cbn. now rewrite Hx, Hu.
  - apply Forall_cons_iff in Hl as [Hc Hl]. cbn [app Float.digits_rest]. rewrite Hc.
    destruct (IH (10 * acc + Str.digit_value c)%Z (S n) Hl Hr) as (acc' & ->).
    exists acc'. do 2 f_equal. cbn. lia.
Qed.

Lemma strip_no_space l :
  Forall (fun c => Str.isspace c = false) l ->
  Str.lstrip l = l /\ Str.rstrip l = l.
Proof.
  assert (forall l', Forall (fun c => Str.isspace c = false) l' -> Str.lstrip l' = l') as H.
  { intros [|c l'] Hl; [reflexivity|]. apply Forall_cons_iff in Hl as [Hc _].
    now apply lstrip_fixed. }
  intros Hl. split; [now apply H|].
  unfold Str.rstrip. rewrite H by now apply Forall_rev. apply rev_involutive.
Qed.

(** A text of digits, a point and digits reads as a number that is not
    negative. *)
Lemma of_string_plain ip fp :
  ip <> [] ->
  Forall (fun c => Str.isdigit c = true) ip ->
  Forall (fun c => Str.isdigit c = true) fp ->
  exists price,
    Float.of_string (Str.of_chars (ip ++ "."%char :: fp)) = Some price /\
    Float.leb Float.zero price = true.
Proof.
  intros Hne Hip Hfp.
  destruct ip as [|c ip]; [contradiction|]. clear Hne.
  apply Forall_cons_iff in Hip as [Hc Hip].
  destruct (isdigit_facts c Hc) as (Hspace & Hlow & Hminus & Hplus & _ & _ & _ & Hi & Hn).
  unfold Float.of_string. rewrite chars_of_chars.
  cbn [app].
  assert (Forall (fun x => Str.isspace x = false) (c :: ip ++ "."%char :: fp)) as Hns.
  { constructor; [exact Hspace|]. apply Forall_app. split.
    - eapply Forall_impl; [|exact Hip]. intros x Hx. now destruct (isdigit_facts x Hx).
    - constructor; [reflexivity|].
      eapply Forall_impl; [|exact Hfp]. intros x Hx. now destruct (isdigit_facts x Hx). }
  destruct (strip_no_space _ Hns) as [-> ->].
  cbn [Float.sign_of]. rewrite Hminus, Hplus.
  unfold Float.absfloatvalue.
  assert (forall w : string, (exists y w', Str.chars w = y :: w' /\ c <> y) ->
            bool_decide
              (Str.of_chars (map Str.lower (c :: ip ++ "."%char :: fp)) = w) = false)
    as Hword.
  { intros w (y & w' & Hw & Hy). apply bool_decide_eq_false_2. intros E.
    apply (f_equal Str.chars) in E. rewrite chars_of_chars, Hw in E.
    cbn [map] in E. rewrite Hlow in E. now injection E. }
  rewrite (Hword "inf") by (exists "i"%char, (Str.chars "nf"); now split).
  rewrite (Hword "infinity") by (exists "i"%char, (Str.chars "nfinity"); now split).
  rewrite (Hword "nan") by (exists "n"%char, (Str.chars "an"); now split).
  cbn [orb].
  unfold Float.number, Float.digitpart. rewrite Hc.
  destruct (digits_rest_digits ip ("."%char :: fp) (10 * 0 + Str.digit_value c)%Z 1 Hip)
    as (i & ->).
  { right. exists "."%char, fp. repeat split; reflexivity. }
  cbn [Ascii.eqb Bool.eqb]. 
  destruct fp as [|x fp].
  - eexists. split; [reflexivity|]. apply has_sign_nonneg, of_decimal_has_sign.
  - apply Forall_cons_iff in Hfp as [Hx Hfp]. rewrite Hx.
    destruct (digits_rest_digits fp [] (10 * i + Str.digit_value x)%Z 1 Hfp)
      as (m & Hm); [now left|].
    rewrite app_nil_r in Hm. rewrite Hm.
    eexists. split; [reflexivity|]. apply has_sign_nonneg, of_decimal_has_sign.
Qed.

(** X5: a card whose price reads a dollar sign, digits, a point and
    digits (the way the site prints prices) is never lost on account of
    its price: when its title and rating are extracted it is kept, and its
    price is a number that is not negative. *)
Theorem plain_price_is_kept d product t v rating ip fp :
  title_text product = Some t ->
  rating_value product = Some v ->
  float_ v = Ok rating ->
  price_text product = Some (Str.of_chars ("$"%char :: ip ++ "."%char :: fp)) ->
  ip <> [] ->
  Forall (fun c => Str.isdigit c = true) ip ->
  Forall (fun c => Str.isdigit c = true) fp ->
  exists price,
    parse_product d product
    = Ok {| Name := Str.strip t; Price := price; Rating := rating;
            Category := "Electronics"; Date := d |} /\
    Float.leb Float.zero price = true.
Proof.
  intros Ht Hv Hrating Hp Hne Hip Hfp.
  destruct (of_string_plain ip fp Hne Hip Hfp) as (price & Hprice & Hpos).
  exists price. split; [|exact Hpos].
  rewrite parse_product_cases, Ht, Hp, Hv, Hrating.
  assert (delete_all "$" (Str.of_chars ("$"%char :: ip ++ "."%char :: fp))
          = Str.of_chars (ip ++ "."%char :: fp)) as ->.
  { unfold delete_all. rewrite chars_of_chars. cbn [List.filter Ascii.eqb Bool.eqb negb].
    f_equal. apply filter_all. apply Forall_app. split.
    - eapply Forall_impl; [|exact Hip]. intros x Hx.
      destruct (isdigit_facts x Hx) as (_ & _ & _ & _ & _ & _ & -> & _). reflexivity.
    - constructor; [reflexivity|].
      eapply Forall_impl; [|exact Hfp]. intros x Hx.
      destruct (isdigit_facts x Hx) as (_ & _ & _ & _ & _ & _ & -> & _). reflexivity. }
  now rewrite Hprice.
Qed.

Lemma plain_price_is_kept_witness :
  exists price,
    parse_product "2024-05-01" (Sample.card "A" "$10.00" (Some "4"))
    = Ok {| Name := "A"; Price := price;
            Rating := S754_finite false 4503599627370496 (-50);
            Category := "Electronics"; Date := "2024-05-01" |} /\
    Float.leb Float.zero price = true.
Proof.
  apply (plain_price_is_kept "2024-05-01" (Sample.card "A" "$10.00" (Some "4"))
           "A" (PyStr "4") (S754_finite false 4503599627370496 (-50))
           (Str.chars "10") (Str.chars "00") eq_refl eq_refl eq_refl eq_refl).
  - discriminate.
  - repeat constructor.
  - repeat constructor.
Defined.
